(** * Task access controller: a shallow embedding and its contract

    The development follows [backend/models/Task.js] (the Mongoose schema of a
    task) and [backend/controllers/taskController.js] (the four handlers
    [getTasks], [createTask], [updateTask] and [deleteTask]).

    Modelling choices.
    - A JavaScript string is a [string]: one [ascii] per code unit, so the
      model covers the code units below 256.
    - The request body and the query string are JSON objects.  The first
      part takes their fields, when present, to hold strings:
      [gmap string string].  The last part ([Request]) takes the fields of
      the query of [getTasks] and of the body of [createTask] to hold any
      JSON value, and shows that its handlers are those of the first part
      on string-valued fields.
    - The [tasks] collection is a finite map from [_id] to the stored
      document, which is what the unique [_id] index of the database makes
      of it.
    - What the handlers obtain from their surroundings (the clock and the
      identifier generated for a new document) is an explicit argument.
    - What the database driver decides (whether a string is an ObjectId,
      what a regular expression matches) is the interface [Driver]; the
      general theorems hold for every driver. *)

From Stdlib Require Import ZArith NArith Lia Ascii String Bool.
From stdpp Require Import base option list gmap strings sorting.

Open Scope string_scope.
Open Scope Z_scope.

(** ** JavaScript values of the handlers *)

Definition ObjectId := N.

(** [if (v)] on an optional string field: [undefined] and [''] are falsy.
    [present v] is the string that a truthy [v] holds. *)
Definition present (v : option string) : option string :=
  match v with
  | Some s => if decide (s = "") then None else Some s
  | None => None
  end.

(** [String.prototype.trim] on code units below 256: TAB, LF, VT, FF, CR,
    SPACE and NBSP are white space. *)
Definition is_white (c : ascii) : bool :=
  let n := nat_of_ascii c in
  ((9 <=? n) && (n <=? 13) || (n =? 32) || (n =? 160))%nat.

Fixpoint trimStart (s : string) : string :=
  match s with
  | String c s' => if is_white c then trimStart s' else s
  | EmptyString => EmptyString
  end.

Definition trimEnd (s : string) : string :=
  String.rev (trimStart (String.rev s)).

Definition trim (s : string) : string := trimEnd (trimStart s).

(** ** The schema of [models/Task.js] *)

Record task := Task {
  title : string;
  description : string;
  status : string;
  userId : ObjectId;
  createdAt : Z;
  updatedAt : Z
}.

#[global] Instance task_eq_dec : EqDecision task.
Proof. solve_decision. Defined.

(** A stored document: its [_id] and its fields. *)
Definition document : Type := ObjectId * task.

Definition statusEnum : list string := ["pending"; "completed"].
Definition statusDefault : string := "pending".
Definition titleMaxlength : nat := 100.
Definition descriptionMaxlength : nat := 500.

(** [Array.prototype.includes] on a list of strings. *)
Definition includes (l : list string) (s : string) : bool :=
  bool_decide (s ∈ l).

(** The schema setters: [trim: true] on [title] and [description]. *)
Definition set_title (v : string) (t : task) : task :=
  Task (trim v) (description t) (status t) (userId t) (createdAt t) (updatedAt t).

Definition set_description (v : string) (t : task) : task :=
  Task (title t) (trim v) (status t) (userId t) (createdAt t) (updatedAt t).

Definition set_status (v : string) (t : task) : task :=
  Task (title t) (description t) v (userId t) (createdAt t) (updatedAt t).

Definition set_updatedAt (v : Z) (t : task) : task :=
  Task (title t) (description t) (status t) (userId t) (createdAt t) v.

(** The schema validators, run by [save()] on the whole document:
    [required] rejects the empty string, [maxlength] bounds the length and
    [enum] restricts [status]. *)
Definition validate (t : task) : bool :=
  negb (bool_decide (title t = "")) &&
  (String.length (title t) <=? titleMaxlength)%nat &&
  negb (bool_decide (description t = "")) &&
  (String.length (description t) <=? descriptionMaxlength)%nat &&
  includes statusEnum (status t).

(** ** What the handlers take from their surroundings *)

(** The clock reading and the ObjectId generated for a new document. *)
Record env := Env { now : Z; freshId : ObjectId }.

(** The database driver.  [castObjectId] is the cast of a route parameter to
    an ObjectId ([None]: the cast throws).  [regexCompile] is the compilation
    of a [$regex] pattern with [$options: 'i'] ([None]: the pattern is
    rejected and the query throws); the compiled pattern says whether it
    matches somewhere in a subject string. *)
Class Driver := {
  castObjectId : string → option ObjectId;
  regexCompile : string → option (string → bool)
}.

(** ** Responses *)

Inductive response :=
| TasksOk (tasks : list document)   (* res.json({ tasks }) *)
| Created (d : document)            (* 201, 'Task created' *)
| Updated (d : document)            (* res.json, 'Task updated' *)
| Deleted                           (* res.json, 'Task deleted' *)
| BadRequest                        (* 400, 'Title and description required' *)
| NotFound                          (* 404, 'Task not found' *)
| ServerError.                      (* 500, 'Server error' *)

Definition http_status (r : response) : Z :=
  match r with
  | TasksOk _ => 200
  | Created _ => 201
  | Updated _ => 200
  | Deleted => 200
  | BadRequest => 400
  | NotFound => 404
  | ServerError => 500
  end.

(** ** The collection and the queries of the handlers *)

(** The query object that [getTasks] builds. *)
Record conditions := Filter {
  f_userId : ObjectId;
  f_or : option string;      (* the pattern of the [$or] of two [$regex] *)
  f_status : option string
}.

(** Newest first: the order of [sort({ createdAt: -1 })]. *)
Definition newer_first (d1 d2 : document) : Prop :=
  createdAt d2.2 ≤ createdAt d1.2.

#[global] Instance newer_first_dec : RelDecision newer_first.
Proof. intros d1 d2. unfold newer_first. apply _. Defined.

Section controller.
Context `{D : Driver}.

(** Does a document satisfy the filter, the pattern being compiled? *)
Definition satisfies (f : conditions) (rx : option (string → bool))
    (d : document) : bool :=
  bool_decide (userId d.2 = f_userId f) &&
  match rx with
  | Some m => m (title d.2) || m (description d.2)
  | None => true
  end &&
  match f_status f with
  | Some s => bool_decide (status d.2 = s)
  | None => true
  end.

(** [Task.find(filter)]: [None] when the driver rejects the pattern. *)
Definition find (f : conditions) (db : gmap ObjectId task)
    : option (list document) :=
  match f_or f with
  | Some p =>
      match regexCompile p with
      | Some m => Some (filter (λ d, satisfies f (Some m) d) (map_to_list db))
      | None => None
      end
  | None => Some (filter (λ d, satisfies f None d) (map_to_list db))
  end.

(** [.sort({ createdAt: -1 })] *)
Definition sort_createdAt_desc (l : list document) : list document :=
  merge_sort newer_first l.

(** [Task.findOne({ _id: id, userId })], the [_id] being cast already. *)
Definition findOne (oid caller : ObjectId) (db : gmap ObjectId task)
    : option task :=
  match db !! oid with
  | Some t => if decide (userId t = caller) then Some t else None
  | None => None
  end.

(** [save()] of a new document: validation, the two timestamps, the
    insertion (which a duplicate [_id] makes fail). *)
Definition save_new (e : env) (t : task) (db : gmap ObjectId task)
    : option (document * gmap ObjectId task) :=
  if validate t then
    match db !! freshId e with
    | Some _ => None
    | None => Some ((freshId e, t), <[freshId e := t]> db)
    end
  else None.

(** [save()] of a loaded document [t0] changed into [t]: validation; when
    a path was modified, [updatedAt] is refreshed and the document
    written. *)
Definition save_loaded (e : env) (oid : ObjectId) (t0 t : task)
    (db : gmap ObjectId task) : option (document * gmap ObjectId task) :=
  if validate t then
    if decide (t = t0) then Some ((oid, t), db)
    else
      let t' := set_updatedAt (now e) t in
      Some ((oid, t'), <[oid := t']> db)
  else None.

(** *** [getTasks] *)
Definition getTasks (caller : ObjectId) (query : gmap string string)
    (db : gmap ObjectId task) : response :=
  let search := query !! "search" in
  let status := query !! "status" in
  let f0 := Filter caller None None in
  let f1 := match present search with
            | Some p => Filter (f_userId f0) (Some p) (f_status f0)
            | None => f0
            end in
  let f2 := match present status with
            | Some s => Filter (f_userId f1) (f_or f1) (Some s)
            | None => f1
            end in
  match find f2 db with
  | Some l => TasksOk (sort_createdAt_desc l)
  | None => ServerError
  end.

(** *** [createTask] *)
Definition createTask (caller : ObjectId) (body : gmap string string)
    (e : env) (db : gmap ObjectId task)
    : response * gmap ObjectId task :=
  let ttl := body !! "title" in
  let dsc := body !! "description" in
  match present ttl, present dsc with
  | Some ttl, Some dsc =>
      let t := set_description dsc (set_title ttl
                 (Task "" "" statusDefault caller (now e) (now e))) in
      match save_new e t db with
      | Some (d, db') => (Created d, db')
      | None => (ServerError, db)
      end
  | _, _ => (BadRequest, db)
  end.

(** *** [updateTask] *)
Definition updateTask (caller : ObjectId) (id : string)
    (body : gmap string string) (e : env) (db : gmap ObjectId task)
    : response * gmap ObjectId task :=
  match castObjectId id with
  | None => (ServerError, db)
  | Some oid =>
      match findOne oid caller db with
      | None => (NotFound, db)
      | Some t0 =>
          let t1 := match present (body !! "title") with
                    | Some v => set_title v t0
                    | None => t0
                    end in
          let t2 := match present (body !! "description") with
                    | Some v => set_description v t1
                    | None => t1
                    end in
          let t3 := match present (body !! "status") with
                    | Some v =>
                        if includes statusEnum v then set_status v t2
                        else t2
                    | None => t2
                    end in
          match save_loaded e oid t0 t3 db with
          | Some (d, db') => (Updated d, db')
          | None => (ServerError, db)
          end
      end
  end.

(** *** [deleteTask] *)
Definition deleteTask (caller : ObjectId) (id : string)
    (db : gmap ObjectId task) : response * gmap ObjectId task :=
  match castObjectId id with
  | None => (ServerError, db)
  | Some oid =>
      match findOne oid caller db with
      | None => (NotFound, db)
      | Some _ => (Deleted, delete oid db)
      end
  end.

End controller.

(** ** A driver to compute with

    [castObjectId] accepts the 24 hexadecimal digits of an ObjectId.

    [regexCompile] reads its argument as a regular expression of the
    database, matched without regard to the case of the letters A to Z and
    at any position of the subject.  The instance knows this much of the
    syntax: ordinary characters, the dot (any character but a line feed),
    [^] and [$] (the start of the subject; its end, or the line feed that
    ends it), alternation, groups [( )] and [(?: )], the quantifiers [*],
    [+], [?], [{n}], [{n,}] and [{n,m}] with their lazy forms, character
    classes with ranges and negation, a backslash before a character that is
    neither a letter nor a digit, and the escapes [\d \D \w \W \s \S \n \r
    \t \f].  It rejects a pattern that holds the NUL character and an
    ill-formed pattern (an unmatched parenthesis, a quantifier with nothing
    to repeat, an unterminated class, a range out of order, a lone
    backslash), as the database does.  It also rejects what it does not know
    (the other escapes, the groups that begin with a question mark other
    than [(?: )], the verbs, the possessive quantifiers, the named classes),
    and it folds the case of no letter beyond ASCII: the instance is to be
    read on the patterns that it knows, and no general theorem depends on
    it. *)

Definition hex_digit (c : ascii) : option N :=
  let n := N_of_ascii c in
  if ((48 <=? n) && (n <=? 57))%N then Some (n - 48)%N
  else if ((97 <=? n) && (n <=? 102))%N then Some (n - 87)%N
  else if ((65 <=? n) && (n <=? 70))%N then Some (n - 55)%N
  else None.

Fixpoint hex_value (acc : N) (s : string) : option N :=
  match s with
  | EmptyString => Some acc
  | String c s' =>
      match hex_digit c with
      | Some d => hex_value (16 * acc + d)%N s'
      | None => None
      end
  end.

Definition cast24 (s : string) : option ObjectId :=
  if (String.length s =? 24)%nat then hex_value 0%N s else None.

Inductive regex :=
| Empty
| Lit (c : ascii)
| AnyChar
| OneOf (negated : bool) (ranges : list (ascii * ascii))
| Bos
| Eos
| Seq (r1 r2 : regex)
| Alt (r1 r2 : regex)
| Star (r : regex).

(** The characters that do not stand for themselves in a pattern. *)
Definition metachars : list ascii :=
  list_ascii_of_string "\^$.[|()?*+{".

Definition is_meta (c : ascii) : bool := bool_decide (c ∈ metachars).

Definition lower (c : ascii) : ascii :=
  let n := nat_of_ascii c in
  if ((65 <=? n) && (n <=? 90))%nat then ascii_of_nat (n + 32) else c.

Definition upper (c : ascii) : ascii :=
  let n := nat_of_ascii c in
  if ((97 <=? n) && (n <=? 122))%nat then ascii_of_nat (n - 32) else c.

(** A string, each character replaced by its image under [fold]. *)
Fixpoint fold_string (fold : ascii → ascii) (s : string) : string :=
  match s with
  | String c s' => String (fold c) (fold_string fold s')
  | EmptyString => EmptyString
  end.

Definition is_ascii (c : ascii) : bool := (nat_of_ascii c <? 128)%nat.

(** *** Reading a pattern *)

(** What a character of a pattern is outside a class.  A closing bracket
    and a closing brace stand for themselves. *)
Inductive kind :=
| Ordinary | Dot | Caret | Dollar | Open | Close | Bar | Bracket
| Backslash | Asterisk | PlusSign | Question | Brace.

Definition kind_of (c : ascii) : kind :=
  if (c =? ".")%char then Dot
  else if (c =? "^")%char then Caret
  else if (c =? "$")%char then Dollar
  else if (c =? "(")%char then Open
  else if (c =? ")")%char then Close
  else if (c =? "|")%char then Bar
  else if (c =? "[")%char then Bracket
  else if (c =? "\")%char then Backslash
  else if (c =? "*")%char then Asterisk
  else if (c =? "+")%char then PlusSign
  else if (c =? "?")%char then Question
  else if (c =? "{")%char then Brace
  else Ordinary.

Definition is_digit (c : ascii) : bool :=
  let n := nat_of_ascii c in ((48 <=? n) && (n <=? 57))%nat.

Definition is_alnum (c : ascii) : bool :=
  let n := nat_of_ascii c in
  (((48 <=? n) && (n <=? 57)) || ((65 <=? n) && (n <=? 90)) ||
   ((97 <=? n) && (n <=? 122)))%nat.

Definition range (lo hi : nat) : ascii * ascii :=
  (ascii_of_nat lo, ascii_of_nat hi).

(** The sets of [\d \D \w \W \s \S]. *)
Definition shorthand (c : ascii) : option (list (ascii * ascii)) :=
  if (c =? "d")%char then Some [range 48 57]
  else if (c =? "D")%char then Some [range 0 47; range 58 255]
  else if (c =? "w")%char then
    Some [range 48 57; range 65 90; range 95 95; range 97 122]
  else if (c =? "W")%char then
    Some [range 0 47; range 58 64; range 91 94; range 96 96; range 123 255]
  else if (c =? "s")%char then Some [range 9 13; range 32 32]
  else if (c =? "S")%char then Some [range 0 8; range 14 31; range 33 255]
  else None.

(** The character that a backslash and [c] stand for. *)
Definition escape_char (c : ascii) : option ascii :=
  if (c =? "n")%char then Some "010"%char
  else if (c =? "r")%char then Some "013"%char
  else if (c =? "t")%char then Some "009"%char
  else if (c =? "f")%char then Some "012"%char
  else if is_alnum c then None
  else Some c.

(** The decimal number that a string begins with, and what follows it. *)
Fixpoint read_digits (acc : N) (s : string) : N * string :=
  match s with
  | String c s' =>
      if is_digit c then read_digits (10 * acc + (N_of_ascii c - 48))%N s'
      else (acc, s)
  | EmptyString => (acc, s)
  end.

Definition starts_with_digit (s : string) : bool :=
  match s with
  | String c _ => is_digit c
  | EmptyString => false
  end.

(** After an opening brace: the bounds [n}], [n,}] or [n,m}] of a
    quantifier and what follows them; [None] when the brace does not begin
    a quantifier, and so stands for itself. *)
Definition bounds (s : string) : option (N * option N * string) :=
  if starts_with_digit s then
    let '(n, s1) := read_digits 0 s in
    match s1 with
    | String c s2 =>
        if (c =? "}")%char then Some (n, Some n, s2)
        else if (c =? ",")%char then
          match s2 with
          | String d s3 =>
              if (d =? "}")%char then Some (n, None, s3)
              else if is_digit d then
                let '(m, s4) := read_digits 0 s2 in
                match s4 with
                | String e s5 =>
                    if (e =? "}")%char then Some (n, Some m, s5) else None
                | EmptyString => None
                end
              else None
          | EmptyString => None
          end
        else None
    | EmptyString => None
    end
  else None.

Fixpoint power (r : regex) (n : nat) : regex :=
  match n with
  | O => Empty
  | S n' => Seq r (power r n')
  end.

Fixpoint upto (r : regex) (n : nat) : regex :=
  match n with
  | O => Empty
  | S n' => Alt (Seq r (upto r n')) Empty
  end.

(** [r{n,}] and [r{n,m}]; the engine takes no bound above 65535 and no
    bounds out of order. *)
Definition bounded (r : regex) (n : N) (m : option N) : option regex :=
  match m with
  | None =>
      if (n <=? 65535)%N then Some (Seq (power r (N.to_nat n)) (Star r))
      else None
  | Some m =>
      if ((n <=? m) && (m <=? 65535))%N
      then Some (Seq (power r (N.to_nat n)) (upto r (N.to_nat (m - n))))
      else None
  end.

(** What follows a quantifier: a question mark makes it lazy, which changes
    where a match is found and not whether there is one; a plus sign makes
    it possessive. *)
Definition quantified (r : regex) (s : string) : option (regex * string) :=
  match s with
  | String c s' =>
      match kind_of c with
      | Question => Some (r, s')
      | PlusSign => None
      | _ => Some (r, s)
      end
  | EmptyString => Some (r, s)
  end.

(** The quantifier, if any, that follows the item [r]. *)
Definition quantifier (r : regex) (repeatable : bool) (s : string)
    : option (regex * string) :=
  match s with
  | String c s' =>
      match kind_of c with
      | Asterisk => if repeatable then quantified (Star r) s' else None
      | PlusSign =>
          if repeatable then quantified (Seq r (Star r)) s' else None
      | Question => if repeatable then quantified (Alt r Empty) s' else None
      | Brace =>
          match bounds s' with
          | Some (n, m, rest) =>
              if repeatable then
                match bounded r n m with
                | Some r' => quantified r' rest
                | None => None
                end
              else None
          | None => Some (r, s)
          end
      | _ => Some (r, s)
      end
  | EmptyString => Some (r, s)
  end.

(** One member of a class: a character, or the set of an escape. *)
Definition class_member (s : string)
    : option ((ascii + list (ascii * ascii)) * string) :=
  match s with
  | String c s' =>
      if (c =? "\")%char then
        match s' with
        | String e s'' =>
            match shorthand e with
            | Some rs => Some (inr rs, s'')
            | None =>
                match escape_char e with
                | Some x => Some (inl x, s'')
                | None => None
                end
            end
        | EmptyString => None
        end
      else if (c =? "[")%char then
        match s' with
        | String x _ =>
            if ((x =? ":") || (x =? ".") || (x =? "="))%char then None
            else Some (inl c, s')
        | EmptyString => Some (inl c, s')
        end
      else Some (inl c, s')
  | EmptyString => None
  end.

(** The members of a class up to its closing bracket. *)
Fixpoint class_body (fuel : nat) (s : string) (acc : list (ascii * ascii))
    : option (list (ascii * ascii) * string) :=
  match fuel with
  | O => None
  | S fuel' =>
      match s with
      | EmptyString => None
      | String c s' =>
          if (c =? "]")%char then Some (acc, s')
          else
            match class_member s with
            | Some (inl lo, String d (String h s2 as s1) as rest) =>
                if ((d =? "-") && negb (h =? "]"))%char then
                  match class_member s1 with
                  | Some (inl hi, rest') =>
                      if (nat_of_ascii lo <=? nat_of_ascii hi)%nat
                      then class_body fuel' rest' (acc ++ [(lo, hi)])
                      else None
                  | _ => None
                  end
                else class_body fuel' rest (acc ++ [(lo, lo)])
            | Some (inl lo, rest) => class_body fuel' rest (acc ++ [(lo, lo)])
            | Some (inr rs, String d (String h _) as rest) =>
                if ((d =? "-") && negb (h =? "]"))%char then None
                else class_body fuel' rest (acc ++ rs)
            | Some (inr rs, rest) => class_body fuel' rest (acc ++ rs)
            | None => None
            end
      end
  end.

(** A class, after its opening bracket: a circumflex first negates it, and
    a closing bracket that comes first is a member. *)
Definition class (s : string) : option (regex * string) :=
  let '(negated, s1) :=
    match s with
    | String c s' => if (c =? "^")%char then (true, s') else (false, s)
    | EmptyString => (false, s)
    end in
  let '(acc, s2) :=
    match s1 with
    | String c s' =>
        if (c =? "]")%char then ([(c, c)], s') else ([], s1)
    | EmptyString => ([], s1)
    end in
  match class_body (S (String.length s2)) s2 acc with
  | Some (ranges, rest) => Some (OneOf negated ranges, rest)
  | None => None
  end.

(** An escape outside a class, after its backslash. *)
Definition escape (s : string) : option (regex * string) :=
  match s with
  | String e s' =>
      match shorthand e with
      | Some rs => Some (OneOf false rs, s')
      | None =>
          match escape_char e with
          | Some x => Some (Lit x, s')
          | None => None
          end
      end
  | EmptyString => None
  end.

(** One item of a sequence, and whether a quantifier may follow it; [group]
    reads the inside of a group. *)
Definition parse_item (group : string → option (regex * string))
    (s : string) : option (regex * bool * string) :=
  match s with
  | EmptyString => None
  | String c s' =>
      match kind_of c with
      | Ordinary => Some (Lit c, true, s')
      | Dot => Some (AnyChar, true, s')
      | Caret => Some (Bos, false, s')
      | Dollar => Some (Eos, false, s')
      | Open =>
          let body :=
            match s' with
            | String q s'' =>
                if (q =? "?")%char then
                  match s'' with
                  | String x s3 => if (x =? ":")%char then Some s3 else None
                  | EmptyString => None
                  end
                else Some s'
            | EmptyString => Some s'
            end in
          match body with
          | Some b =>
              match group b with
              | Some (r, String x rest) =>
                  if (x =? ")")%char then Some (r, true, rest) else None
              | _ => None
              end
          | None => None
          end
      | Bracket =>
          match class s' with
          | Some (r, rest) => Some (r, true, rest)
          | None => None
          end
      | Backslash =>
          match escape s' with
          | Some (r, rest) => Some (r, true, rest)
          | None => None
          end
      | Brace =>
          match bounds s' with
          | Some _ => None
          | None => Some (Lit c, true, s')
          end
      | Close | Bar | Asterisk | PlusSign | Question => None
      end
  end.

(** A sequence of quantified items, up to a bar, a closing parenthesis or
    the end of the pattern; [n] bounds the number of items. *)
Fixpoint parse_seq (group : string → option (regex * string)) (n : nat)
    (s : string) : option (regex * string) :=
  match n with
  | O => None
  | S n' =>
      match s with
      | EmptyString => Some (Empty, s)
      | String c _ =>
          match kind_of c with
          | Close | Bar => Some (Empty, s)
          | _ =>
              match parse_item group s with
              | Some (r, repeatable, rest) =>
                  match quantifier r repeatable rest with
                  | Some (r', rest') =>
                      match parse_seq group n' rest' with
                      | Some (r2, rest'') => Some (Seq r' r2, rest'')
                      | None => None
                      end
                  | None => None
                  end
              | None => None
              end
          end
      end
  end.

(** Alternatives; [fuel] bounds the depth of the groups and the number of
    the alternatives. *)
Fixpoint parse_alt (fuel : nat) (s : string) : option (regex * string) :=
  match fuel with
  | O => None
  | S fuel' =>
      match parse_seq (parse_alt fuel') (S (String.length s)) s with
      | Some (r1, String c rest) =>
          if (c =? "|")%char then
            match parse_alt fuel' rest with
            | Some (r2, rest') => Some (Alt r1 r2, rest')
            | None => None
            end
          else Some (r1, String c rest)
      | other => other
      end
  end.

Definition parse (p : string) : option regex :=
  if existsb (λ c, (c =? "000")%char) (list_ascii_of_string p) then None
  else
    match parse_alt (S (String.length p)) p with
    | Some (r, EmptyString) => Some r
    | _ => None
    end.

(** *** Matching *)

Definition in_ranges (ranges : list (ascii * ascii)) (d : ascii) : bool :=
  existsb (λ '(lo, hi), (nat_of_ascii lo <=? nat_of_ascii d)%nat &&
                        (nat_of_ascii d <=? nat_of_ascii hi)%nat) ranges.

(** A class holds a letter in either case. *)
Definition class_matches (negated : bool) (ranges : list (ascii * ascii))
    (d : ascii) : bool :=
  xorb negated
    (in_ranges ranges d || in_ranges ranges (lower d) ||
     in_ranges ranges (upper d)).

(** Does [r] match a prefix of [s] after which [k] holds?  [bos] tells
    whether [s] is the whole subject.  A repetition goes on only while it
    consumes characters. *)
Fixpoint match_re (r : regex) (bos : bool) (s : string)
    (k : bool → string → bool) : bool :=
  match r with
  | Empty => k bos s
  | Lit c =>
      match s with
      | String d s' => bool_decide (lower c = lower d) && k false s'
      | EmptyString => false
      end
  | AnyChar =>
      match s with
      | String d s' => negb (bool_decide (d = "010"%char)) && k false s'
      | EmptyString => false
      end
  | OneOf negated ranges =>
      match s with
      | String d s' => class_matches negated ranges d && k false s'
      | EmptyString => false
      end
  | Bos => bos && k bos s
  | Eos =>
      (bool_decide (s = "") || bool_decide (s = String "010" "")) && k bos s
  | Seq r1 r2 => match_re r1 bos s (λ b s', match_re r2 b s' k)
  | Alt r1 r2 => match_re r1 bos s k || match_re r2 bos s k
  | Star r1 =>
      (fix loop (n : nat) (bos : bool) (s : string) : bool :=
         k bos s ||
         match n with
         | O => false
         | S n' =>
             match_re r1 bos s
               (λ b s', (String.length s' <? String.length s)%nat &&
                        loop n' b s')
         end) (String.length s) bos s
  end.

Fixpoint search_from (r : regex) (bos : bool) (s : string) : bool :=
  match_re r bos s (λ _ _, true) ||
  match s with
  | String _ s' => search_from r false s'
  | EmptyString => false
  end.

Definition search_in (r : regex) (s : string) : bool := search_from r true s.

Definition mongo : Driver :=
  {| castObjectId := cast24;
     regexCompile := λ p, search_in <$> parse p |}.

(** ** The words of the specification *)

(** [p] occurs in [s] as a substring, two characters counting as the same
    when [fold] sends them to the same one ([fold] is the letter case that
    the regular-expression engine ignores). *)
Definition occurs_ci (fold : ascii → ascii) (p s : string) : Prop :=
  ∃ a b : string, fold_string fold s = a ++ fold_string fold p ++ b.

(** A search string without regular-expression metacharacters and without
    the NUL character. *)
Definition plain (p : string) : bool :=
  forallb (λ c, negb (is_meta c) && negb (bool_decide (c = "000"%char)))
    (list_ascii_of_string p).

(** A collection, a clock reading and a generated [_id] to evaluate the
    handlers at: two tasks of user 7 and one of user 8. *)
Definition sample_task : task :=
  Task "Buy Milk" "2 litres" "pending" 7%N 1000 1000.

Definition sample_db : gmap ObjectId task :=
  <[ 2%N := Task "Call Bob" "about the invoice" "completed" 7%N 3000 3500 ]>
  (<[ 1%N := sample_task ]>
  (<[ 5%N := Task "Other" "of user 8" "pending" 8%N 2000 2000 ]> ∅)).

Definition sample_env : env := Env 5000 10%N.

(** Does a field of the request, when it holds a non-empty string, pass the
    validators of the schema once trimmed? *)
Definition accepted (maxlength : nat) (v : option string) : bool :=
  match present v with
  | Some s =>
      negb (bool_decide (trim s = "")) &&
      (String.length (trim s) <=? maxlength)%nat
  | None => true
  end.

(** The value of a field after an update that went through. *)
Definition supplied (v : option string) (old : string) : string :=
  match present v with
  | Some s => trim s
  | None => old
  end.

(** [n] copies of a character. *)
Fixpoint copies (n : nat) (c : ascii) : string :=
  match n with
  | O => EmptyString
  | S n' => String c (copies n' c)
  end.

(** The tasks of a caller and the tasks of everybody else. *)
Definition owned (caller : ObjectId) (db : gmap ObjectId task)
    : gmap ObjectId task :=
  filter (λ kt, userId kt.2 = caller) db.

Definition foreign (caller : ObjectId) (db : gmap ObjectId task)
    : gmap ObjectId task :=
  filter (λ kt, userId kt.2 ≠ caller) db.

(** Does the driver reject the search pattern of a query? *)
Definition search_rejected `{D : Driver} (query : gmap string string) : bool :=
  match present (query !! "search") with
  | Some p => bool_decide (regexCompile p = None :> option (string → bool))
  | None => false
  end.

(** * Properties *)

(** ** The handlers at the sample collection *)

Example trim_both_ends : trim "  Buy  Milk  " = "Buy  Milk".
Proof. reflexivity. Qed.

Example present_empty : present (Some "") = None ∧ present None = None.
Proof. split; reflexivity. Qed.

Example cast24_sample : cast24 "00000000000000000000000a" = Some 10%N.
Proof. reflexivity. Qed.

Example cast24_short : cast24 "abc" = None.
Proof. reflexivity. Qed.

Example getTasks_sample :
  getTasks (D:=mongo) 7%N ∅ sample_db
  = TasksOk
      [(2%N, Task "Call Bob" "about the invoice" "completed" 7%N 3000 3500);
       (1%N, sample_task)].
Proof. vm_compute. reflexivity. Qed.

Example getTasks_sample_status :
  getTasks (D:=mongo) 7%N {[ "status" := "pending" ]} sample_db
  = TasksOk [(1%N, sample_task)].
Proof. vm_compute. reflexivity. Qed.

Example getTasks_sample_bad_pattern :
  getTasks (D:=mongo) 7%N {[ "search" := "(" ]} sample_db = ServerError.
Proof. vm_compute. reflexivity. Qed.

Example updateTask_sample_foreign :
  updateTask (D:=mongo) 7%N "000000000000000000000005"
    {[ "status" := "completed" ]} sample_env sample_db
  = (NotFound, sample_db).
Proof. vm_compute. reflexivity. Qed.

Example updateTask_sample_empty_title :
  (updateTask (D:=mongo) 7%N "000000000000000000000001"
     {[ "title" := ""; "status" := "completed" ]} sample_env sample_db).1
  = Updated (1%N, Task "Buy Milk" "2 litres" "completed" 7%N 1000 5000).
Proof. vm_compute. reflexivity. Qed.

Example deleteTask_sample :
  deleteTask (D:=mongo) 7%N "000000000000000000000002" sample_db
  = (Deleted, delete 2%N sample_db).
Proof. vm_compute. reflexivity. Qed.

Example createTask_sample_missing :
  createTask 7%N {[ "title" := "T" ]} sample_env sample_db
  = (BadRequest, sample_db).
Proof. vm_compute. reflexivity. Qed.

(** ** Setters and the loaded document *)

Lemma present_Some v s : present v = Some s ↔ v = Some s ∧ s ≠ "".
Proof.
  unfold present. destruct v as [s'|].
  - destruct (decide (s' = "")) as [->|Hne]; split.
    + done.
    + intros [[= <-] Hs]. done.
    + intros [= <-]. done.
    + intros [[= <-] _]. done.
  - split; [done|]. intros [? _]. done.
Qed.

Lemma present_None v : present v = None ↔ v = None ∨ v = Some "".
Proof.
  unfold present. destruct v as [s'|].
  - destruct (decide (s' = "")) as [->|Hne]; split.
    + intros _. by right.
    + done.
    + done.
    + intros [?|[= ->]]; done.
  - split; [by left|done].
Qed.

Lemma findOne_Some oid caller db t :
  findOne oid caller db = Some t ↔ db !! oid = Some t ∧ userId t = caller.
Proof.
  unfold findOne. destruct (db !! oid) as [t'|].
  - destruct (decide (userId t' = caller)) as [Hu|Hu]; split.
    + intros [= <-]. done.
    + intros [[= <-] _]. done.
    + done.
    + intros [[= <-] Hu']. done.
  - split; [done|]. intros [? _]. done.
Qed.

Lemma findOne_None oid caller db :
  findOne oid caller db = None ↔
  ¬ ∃ t, db !! oid = Some t ∧ userId t = caller.
Proof.
  destruct (findOne oid caller db) as [t|] eqn:E.
  - apply findOne_Some in E. split; [done|]. intros H. destruct H. eauto.
  - split; [|done]. intros _ (t & Ht). apply findOne_Some in Ht. congruence.
Qed.

Lemma findOne_owned oid caller db :
  findOne oid caller (owned caller db) = findOne oid caller db.
Proof.
  unfold findOne, owned. rewrite map_lookup_filter.
  destruct (db !! oid) as [t|]; simpl; [|done].
  case_guard; simpl in *; destruct (decide (userId t = caller)); done.
Qed.

(** The document that [updateTask] hands to [save()]. *)
Definition assign (body : gmap string string) (t0 : task) : task :=
  let t1 := match present (body !! "title") with
            | Some v => set_title v t0
            | None => t0
            end in
  let t2 := match present (body !! "description") with
            | Some v => set_description v t1
            | None => t1
            end in
  match present (body !! "status") with
  | Some v => if includes statusEnum v then set_status v t2 else t2
  | None => t2
  end.

Lemma userId_assign body t0 : userId (assign body t0) = userId t0.
Proof.
  unfold assign.
  repeat (case_match; simpl); reflexivity.
Qed.

Lemma createdAt_assign body t0 : createdAt (assign body t0) = createdAt t0.
Proof.
  unfold assign.
  repeat (case_match; simpl); reflexivity.
Qed.

Lemma updateTask_unfold `{D : Driver} caller id body e db :
  updateTask caller id body e db =
  match castObjectId id with
  | None => (ServerError, db)
  | Some oid =>
      match findOne oid caller db with
      | None => (NotFound, db)
      | Some t0 =>
          match save_loaded e oid t0 (assign body t0) db with
          | Some (d, db') => (Updated d, db')
          | None => (ServerError, db)
          end
      end
  end.
Proof. reflexivity. Qed.


(** ** What [find] returns *)

Lemma satisfies_spec f rx (d : document) :
  satisfies f rx d = true ↔
  userId d.2 = f_userId f ∧
  match rx with
  | Some m => m (title d.2) = true ∨ m (description d.2) = true
  | None => True
  end ∧
  match f_status f with
  | Some s => status d.2 = s
  | None => True
  end.
Proof.
  unfold satisfies. rewrite !andb_true_iff, bool_decide_eq_true.
  destruct rx as [m|], (f_status f) as [s|];
    rewrite ?orb_true_iff, ?bool_decide_eq_true; tauto.
Qed.

Lemma elem_of_sort_createdAt_desc (l : list document) d :
  d ∈ sort_createdAt_desc l ↔ d ∈ l.
Proof. unfold sort_createdAt_desc. by rewrite merge_sort_Permutation. Qed.

#[global] Instance newer_first_total : Total newer_first.
Proof. intros d1 d2. unfold newer_first. lia. Qed.

#[global] Instance newer_first_trans : Transitive newer_first.
Proof. intros d1 d2 d3. unfold newer_first. lia. Qed.

(** The filter that [getTasks] builds from the query. *)
Definition filter_of (caller : ObjectId) (query : gmap string string)
    : conditions :=
  Filter caller (present (query !! "search")) (present (query !! "status")).

Lemma getTasks_unfold `{D : Driver} caller query db :
  getTasks caller query db =
  match find (filter_of caller query) db with
  | Some l => TasksOk (sort_createdAt_desc l)
  | None => ServerError
  end.
Proof.
  unfold getTasks, filter_of.
  destruct (present (query !! "search")), (present (query !! "status"));
    reflexivity.
Qed.


Lemma find_Some `{D : Driver} f db l :
  find f db = Some l →
  ∃ rx, (rx = (f_or f ≫= regexCompile)) ∧
        l = filter (λ d, satisfies f rx d) (map_to_list db).
Proof.
  unfold find. destruct (f_or f) as [p|]; simpl.
  - destruct (regexCompile p) as [m|]; [|done].
    intros [= <-]. by exists (Some m).
  - intros [= <-]. by exists None.
Qed.


(** A document that [getTasks] returns is a stored document of the caller. *)
Lemma getTasks_stored `{D : Driver} caller query db :
  match getTasks caller query db with
  | TasksOk l => Forall (λ d, db !! d.1 = Some d.2 ∧ userId d.2 = caller) l
  | _ => True
  end.
Proof.
  rewrite getTasks_unfold.
  destruct (find _ db) as [l|] eqn:E; [|done].
  apply find_Some in E as (rx & _ & ->).
  apply Forall_forall. intros [k t] Hd.
  apply elem_of_sort_createdAt_desc, list_elem_of_filter in Hd as [Hs Hd].
  apply Is_true_true, satisfies_spec in Hs as (Hu & _).
  apply elem_of_map_to_list in Hd. done.
Qed.

(** ** C1: owner scoping *)

(** C1. Every query carries the caller: a document that [getTasks] returns
    is a stored document of the caller; [updateTask] and [deleteTask] leave
    the documents of everybody else as they are, and what they answer and do
    to the documents of the caller is what they answer and do when the
    collection holds the documents of the caller only, whatever [id] is. *)
Theorem owner_scoping `{D : Driver} (caller : ObjectId)
    (db : gmap ObjectId task) :
  (∀ query,
     match getTasks caller query db with
     | TasksOk l =>
         Forall (λ d, db !! d.1 = Some d.2 ∧ userId d.2 = caller) l
     | _ => True
     end) ∧
  (∀ id body e,
     let r := updateTask caller id body e db in
     foreign caller r.2 = foreign caller db ∧
     updateTask caller id body e (owned caller db) = (r.1, owned caller r.2) ∧
     match r.1 with Updated d => userId d.2 = caller | _ => True end) ∧
  (∀ id,
     let r := deleteTask caller id db in
     foreign caller r.2 = foreign caller db ∧
     deleteTask caller id (owned caller db) = (r.1, owned caller r.2)).
Proof.
  split; [|split].
  - intros query. apply getTasks_stored.
  - intros id body e. simpl. rewrite !updateTask_unfold.
    destruct (castObjectId id) as [oid|]; [|done].
    rewrite findOne_owned.
    destruct (findOne oid caller db) as [t0|] eqn:E; [|done].
    apply findOne_Some in E as [Hl Hu].
    unfold save_loaded. destruct (validate _); [|done].
    destruct (decide (assign body t0 = t0)) as [->|_]; [done|]. simpl.
    set (t' := set_updatedAt _ _).
    assert (userId t' = caller) as Hu' by (subst t'; simpl; by rewrite userId_assign).
    split; [|split; [|done]].
    + unfold foreign. rewrite map_filter_insert_False by (simpl; tauto).
      rewrite map_filter_delete. apply delete_id.
      apply map_lookup_filter_None. right. intros t Ht. simpl.
      rewrite Hl in Ht. injection Ht as <-. tauto.
    + unfold owned. by rewrite map_filter_insert_True.
  - intros id. simpl. unfold deleteTask.
    destruct (castObjectId id) as [oid|]; [|done].
    rewrite findOne_owned.
    destruct (findOne oid caller db) as [t0|] eqn:E; [|done].
    apply findOne_Some in E as [Hl Hu]. simpl. split.
    + unfold foreign. rewrite map_filter_delete. apply delete_id.
      apply map_lookup_filter_None. right. intros t Ht. simpl.
      rewrite Hl in Ht. injection Ht as <-. tauto.
    + unfold owned. by rewrite map_filter_delete.
Qed.

(** ** C2: NotFound *)

(** The claim at one request: the answer is NotFound exactly when the
    collection holds no document of the caller under the [_id] that [id]
    denotes. *)
Definition not_found_exactly_when_absent `{D : Driver} (caller : ObjectId)
    (id : string) (body : gmap string string) (e : env)
    (db : gmap ObjectId task) : Prop :=
  let absent := ¬ ∃ oid t, castObjectId id = Some oid ∧
                           db !! oid = Some t ∧ userId t = caller in
  ((updateTask caller id body e db).1 = NotFound ↔ absent) ∧
  ((deleteTask caller id db).1 = NotFound ↔ absent).

(** C2, as stated, fails on an [id] that is no ObjectId: nothing is stored
    under ["abc"], and the answer is the 500 of the [catch], not NotFound. *)
Lemma not_found_fails_on_malformed_id :
  updateTask (D:=mongo) 7%N "abc" ∅ sample_env sample_db
    = (ServerError, sample_db) ∧
  deleteTask (D:=mongo) 7%N "abc" sample_db = (ServerError, sample_db) ∧
  ¬ not_found_exactly_when_absent (D:=mongo) 7%N "abc" ∅ sample_env sample_db.
Proof.
  split; [reflexivity|]. split; [reflexivity|].
  intros [[_ H] _].
  assert ((updateTask (D:=mongo) 7%N "abc" ∅ sample_env sample_db).1
            = NotFound) as E; [|discriminate E].
  apply H. intros (oid & t & Hc & _). discriminate Hc.
Qed.

(** C2, amended.  When [id] is an ObjectId, [updateTask] and [deleteTask]
    answer NotFound exactly when the collection holds no document of the
    caller under it, be it that nothing is stored there or that the document
    belongs to somebody else; when [id] is no ObjectId they answer 500; and
    whenever they do not answer with a success the collection is what it
    was. *)
Theorem not_found_iff_absent_or_foreign `{D : Driver} (caller : ObjectId)
    (id : string) (body : gmap string string) (e : env)
    (db : gmap ObjectId task) :
  let u := updateTask caller id body e db in
  let d := deleteTask caller id db in
  match castObjectId id with
  | Some oid =>
      (u.1 = NotFound ↔ ¬ ∃ t, db !! oid = Some t ∧ userId t = caller) ∧
      (d.1 = NotFound ↔ ¬ ∃ t, db !! oid = Some t ∧ userId t = caller) ∧
      not_found_exactly_when_absent caller id body e db
  | None => u.1 = ServerError ∧ d.1 = ServerError
  end ∧
  match u.1 with Updated _ => True | _ => u.2 = db end ∧
  match d.1 with Deleted => True | _ => d.2 = db end.
Proof.
  simpl. unfold not_found_exactly_when_absent.
  rewrite updateTask_unfold. unfold deleteTask.
  destruct (castObjectId id) as [oid|]; [|done].
  destruct (findOne oid caller db) as [t0|] eqn:E.
  - pose proof E as E'. apply findOne_Some in E' as [Hl Hu].
    assert (∃ t, db !! oid = Some t ∧ userId t = caller) as Hex by eauto.
    destruct (save_loaded _ _ _ _ _) as [[d' db']|]; simpl;
      (split; [|done]);
      repeat split; try done; intros Habs; exfalso; apply Habs;
      try done; exists oid; destruct Hex as (t & ?); eauto.
  - pose proof E as E'. rewrite findOne_None in E'. simpl.
    split; [|done]. repeat split; try done.
    all: intros _ (oid' & t & Hc & ?); injection Hc as <-; eauto.
Qed.

(** ** Patterns without metacharacters *)

(** The expression that [parse] reads from a pattern without
    metacharacters. *)
Fixpoint literals (p : string) : regex :=
  match p with
  | String c p' => Seq (Lit c) (literals p')
  | EmptyString => Empty
  end.

Lemma kind_of_plain c : is_meta c = false → kind_of c = Ordinary.
Proof.
  intros Hc. apply bool_decide_eq_false in Hc. unfold kind_of.
  repeat match goal with
  | |- context [(c =? ?m)%char] =>
      destruct (Ascii.eqb_spec c m) as [->|_];
        [exfalso; apply Hc; vm_compute; set_solver|]
  end.
  reflexivity.
Qed.

Lemma plain_cons c p :
  plain (String c p) = true →
  is_meta c = false ∧ c ≠ "000"%char ∧ plain p = true.
Proof.
  unfold plain. simpl.
  intros [[Hc Hz%negb_true_iff]%andb_true_iff Hp]%andb_true_iff.
  apply negb_true_iff in Hc. apply bool_decide_eq_false in Hz. done.
Qed.

Lemma quantifier_plain r repeatable s :
  plain s = true → quantifier r repeatable s = Some (r, s).
Proof.
  destruct s as [|c s]; [done|]. intros (Hc & _ & _)%plain_cons.
  unfold quantifier. by rewrite (kind_of_plain c Hc).
Qed.

Lemma parse_seq_plain group n p :
  plain p = true → (String.length p < n)%nat →
  parse_seq group n p = Some (literals p, "").
Proof.
  revert n. induction p as [|c p IH]; intros n Hp Hn.
  - destruct n; [lia|]. reflexivity.
  - destruct n; [simpl in Hn; lia|].
    apply plain_cons in Hp as (Hc & _ & Hp). simpl in Hn.
    cbn [parse_seq parse_item]. rewrite (kind_of_plain c Hc).
    rewrite (quantifier_plain _ _ p Hp), (IH n Hp) by lia. reflexivity.
Qed.

Lemma parse_plain p : plain p = true → parse p = Some (literals p).
Proof.
  intros Hp. unfold parse.
  assert (existsb (λ c, (c =? "000")%char) (list_ascii_of_string p) = false)
    as ->.
  { induction p as [|c p IH]; [done|].
    apply plain_cons in Hp as (_ & Hz & Hp). simpl.
    rewrite (IH Hp), orb_false_r. by apply Ascii.eqb_neq. }
  cbn [parse_alt]. by rewrite (parse_seq_plain _ _ p Hp) by lia.
Qed.

Lemma match_re_literals p bos s :
  match_re (literals p) bos s (λ _ _, true) = true ↔
  ∃ b, fold_string lower s = fold_string lower p ++ b.
Proof.
  revert bos s. induction p as [|c p IH]; intros bos s; simpl.
  - split; [|done]. intros _. by exists (fold_string lower s).
  - destruct s as [|d s]; simpl.
    + split; [done|]. by intros [b Hb].
    + rewrite andb_true_iff, bool_decide_eq_true, IH. split.
      * intros [-> [b ->]]. by exists b.
      * intros [b [= -> ->]]. eauto.
Qed.

Lemma search_from_literals p bos s :
  search_from (literals p) bos s = true ↔ occurs_ci lower p s.
Proof.
  unfold occurs_ci. revert bos. induction s as [|d s IH]; intros bos.
  - cbn [search_from]. rewrite orb_false_r, match_re_literals. split.
    + intros [b Hb]. by exists "", b.
    + intros (a & b & Hab). destruct a; [by exists b|done].
  - cbn [search_from]. rewrite orb_true_iff, match_re_literals, IH. split.
    + intros [[b Hb]|(a & b & Hab)].
      * by exists "", b.
      * exists (String (lower d) a), b. simpl. by rewrite Hab.
    + intros (a & b & Hab). destruct a as [|x a].
      * left. by exists b.
      * right. exists a, b. simpl in Hab. by injection Hab.
Qed.

Lemma search_in_literals p s :
  search_in (literals p) s = true ↔ occurs_ci lower p s.
Proof. apply search_from_literals. Qed.

(** ** C4 and C5: what an update assigns *)

Lemma title_assign body t0 :
  title (assign body t0) = supplied (body !! "title") (title t0).
Proof.
  unfold assign, supplied.
  repeat (case_match; simpl); reflexivity.
Qed.

Lemma description_assign body t0 :
  description (assign body t0)
  = supplied (body !! "description") (description t0).
Proof.
  unfold assign, supplied.
  repeat (case_match; simpl); reflexivity.
Qed.

Lemma status_assign body t0 :
  status (assign body t0) =
  match present (body !! "status") with
  | Some v => if includes statusEnum v then v else status t0
  | None => status t0
  end.
Proof.
  unfold assign.
  repeat (case_match; simpl); reflexivity.
Qed.

Lemma validate_true t :
  validate t = true ↔
  title t ≠ "" ∧ (String.length (title t) ≤ titleMaxlength)%nat ∧
  description t ≠ "" ∧
  (String.length (description t) ≤ descriptionMaxlength)%nat ∧
  status t ∈ statusEnum.
Proof.
  unfold validate, includes.
  rewrite !andb_true_iff, !negb_true_iff, !bool_decide_eq_false,
    !bool_decide_eq_true, !Nat.leb_le.
  tauto.
Qed.

Lemma accepted_supplied n v old :
  accepted n v = true → old ≠ "" → (String.length old ≤ n)%nat →
  supplied v old ≠ "" ∧ (String.length (supplied v old) ≤ n)%nat.
Proof.
  unfold accepted, supplied. destruct (present v) as [s|]; [|done].
  rewrite andb_true_iff, negb_true_iff, bool_decide_eq_false, Nat.leb_le.
  tauto.
Qed.

Lemma validate_assign body t0 :
  validate t0 = true →
  accepted titleMaxlength (body !! "title") = true →
  accepted descriptionMaxlength (body !! "description") = true →
  validate (assign body t0) = true.
Proof.
  rewrite !validate_true. intros (Ht & Htl & Hd & Hdl & Hs) Hat Had.
  rewrite title_assign, description_assign, status_assign.
  destruct (accepted_supplied _ _ _ Hat Ht Htl).
  destruct (accepted_supplied _ _ _ Had Hd Hdl).
  repeat split; try done.
  destruct (present (body !! "status")) as [v|]; [|done].
  unfold includes. case_bool_decide; done.
Qed.

Lemma updateTask_owned `{D : Driver} caller id body e db oid t0 :
  castObjectId id = Some oid →
  db !! oid = Some t0 →
  userId t0 = caller →
  updateTask caller id body e db =
  if validate (assign body t0) then
    if decide (assign body t0 = t0) then (Updated (oid, t0), db)
    else (Updated (oid, set_updatedAt (now e) (assign body t0)),
          <[oid := set_updatedAt (now e) (assign body t0)]> db)
  else (ServerError, db).
Proof.
  intros Hc Hl Hu. rewrite updateTask_unfold, Hc.
  assert (findOne oid caller db = Some t0) as -> by (by apply findOne_Some).
  unfold save_loaded. destruct (validate _); [|done].
  destruct (decide _) as [->|]; done.
Qed.

(** What is stored under [oid] after an update of the document [t0] of the
    caller: [t0] itself, or what [save()] wrote. *)
Lemma updateTask_stored `{D : Driver} caller id body e db oid t0 :
  castObjectId id = Some oid →
  db !! oid = Some t0 →
  userId t0 = caller →
  let r := updateTask caller id body e db in
  (r.1 = ServerError ∧ validate (assign body t0) = false ∧ r.2 = db) ∨
  (∃ t', r.1 = Updated (oid, t') ∧ validate (assign body t0) = true ∧
         r.2 !! oid = Some t' ∧
         title t' = title (assign body t0) ∧
         description t' = description (assign body t0) ∧
         status t' = status (assign body t0) ∧
         userId t' = userId t0 ∧ createdAt t' = createdAt t0).
Proof.
  intros Hc Hl Hu. simpl. rewrite (updateTask_owned _ _ _ _ _ _ _ Hc Hl Hu).
  destruct (validate _) eqn:Hv; [right|left; done].
  destruct (decide _) as [Heq|Hne]; simpl.
  - exists t0. rewrite Heq. done.
  - eexists. split; [reflexivity|]. rewrite lookup_insert_eq. simpl.
    by rewrite userId_assign, createdAt_assign.
Qed.

(** The owner of a stored document is the same after any update. *)
Lemma updateTask_userId `{D : Driver} caller id body e db k t :
  db !! k = Some t →
  ∃ t', (updateTask caller id body e db).2 !! k = Some t' ∧
        userId t' = userId t.
Proof.
  intros Hk. rewrite updateTask_unfold.
  destruct (castObjectId id) as [oid|]; [|by eauto].
  destruct (findOne oid caller db) as [t0|] eqn:E; [|by eauto].
  apply findOne_Some in E as [Hl Hu].
  unfold save_loaded. destruct (validate _); [|by eauto].
  destruct (decide _) as [_|_]; [by eauto|]. simpl.
  destruct (decide (oid = k)) as [->|Hne].
  - rewrite lookup_insert_eq. eexists. split; [done|]. simpl.
    rewrite userId_assign. congruence.
  - rewrite lookup_insert_ne by done. eauto.
Qed.

(** The document that [createTask] builds. *)
Definition new_task (caller : ObjectId) (ttl dsc : string) (e : env) : task :=
  Task (trim ttl) (trim dsc) statusDefault caller (now e) (now e).

Lemma createTask_unfold caller body e db :
  createTask caller body e db =
  match present (body !! "title"), present (body !! "description") with
  | Some ttl, Some dsc =>
      if validate (new_task caller ttl dsc e) then
        match db !! freshId e with
        | Some _ => (ServerError, db)
        | None => (Created (freshId e, new_task caller ttl dsc e),
                   <[freshId e := new_task caller ttl dsc e]> db)
        end
      else (ServerError, db)
  | _, _ => (BadRequest, db)
  end.
Proof.
  unfold createTask, save_new, new_task.
  destruct (present (body !! "title")) as [ttl|]; [|done].
  destruct (present (body !! "description")) as [dsc|]; [|done].
  simpl. destruct (validate _); [|done].
  destruct (db !! freshId e); done.
Qed.

Lemma createTask_Created caller body e db :
  match (createTask caller body e db).1 with
  | Created d => userId d.2 = caller ∧ status d.2 = statusDefault
  | _ => True
  end.
Proof.
  rewrite createTask_unfold.
  destruct (present (body !! "title")) as [ttl|]; [|done].
  destruct (present (body !! "description")) as [dsc|]; [|done].
  destruct (validate _); [|done].
  destruct (db !! freshId e); done.
Qed.

(** The route parameter of the first sample task. *)
Definition sample_id : string := "000000000000000000000001".

(** C4 at one request, as stated: in the stored task a field that the
    request omits or leaves empty is unchanged, a field that it supplies
    holds the supplied value, and the owner is unchanged. *)
Definition supplied_fields_applied `{D : Driver} (caller : ObjectId)
    (id : string) (body : gmap string string) (e : env)
    (db : gmap ObjectId task) : Prop :=
  ∀ oid t0,
    castObjectId id = Some oid → db !! oid = Some t0 → userId t0 = caller →
    ∃ t', (updateTask caller id body e db).2 !! oid = Some t' ∧
          (present (body !! "title") = None → title t' = title t0) ∧
          (∀ v, present (body !! "title") = Some v → title t' = v) ∧
          (present (body !! "description") = None →
           description t' = description t0) ∧
          (∀ v, present (body !! "description") = Some v →
                description t' = v) ∧
          userId t' = userId t0.

(** C4, as stated, fails on a description of 501 characters: [save()]
    rejects the document, the answer is 500 and the description is not
    applied.  A description with white space around it is applied trimmed. *)
Lemma update_long_description_not_applied :
  updateTask (D:=mongo) 7%N sample_id
    {[ "description" := copies 501 "a" ]} sample_env sample_db
    = (ServerError, sample_db) ∧
  (∃ t', (updateTask (D:=mongo) 7%N sample_id
            {[ "description" := " x " ]} sample_env sample_db).2 !! 1%N
           = Some t' ∧ description t' = "x") ∧
  ¬ supplied_fields_applied (D:=mongo) 7%N sample_id
      {[ "description" := copies 501 "a" ]} sample_env sample_db.
Proof.
  split; [vm_compute; reflexivity|]. split.
  - eexists. split; vm_compute; reflexivity.
  - intros H.
    destruct (H 1%N sample_task) as (t' & Hl & _ & _ & _ & Hd & _);
      [reflexivity..|].
    specialize (Hd (copies 501 "a") eq_refl).
    vm_compute in Hl. injection Hl as <-. vm_compute in Hd. discriminate Hd.
Qed.

(** C4, amended.  For a task of the caller, a title or description that the
    request omits or supplies empty leaves the stored value as it is; when
    the stored task and the non-empty fields supplied pass the validators of
    the schema once trimmed, the update succeeds and stores the supplied
    fields trimmed; the owner of a created task is the caller, and no update
    by anybody changes the owner of a stored task. *)
Theorem update_partial `{D : Driver} (caller : ObjectId) (id : string)
    (body : gmap string string) (e : env) (db : gmap ObjectId task)
    (oid : ObjectId) (t0 : task) :
  castObjectId id = Some oid →
  db !! oid = Some t0 →
  userId t0 = caller →
  let r := updateTask caller id body e db in
  (∃ t', r.2 !! oid = Some t' ∧
         (present (body !! "title") = None → title t' = title t0) ∧
         (present (body !! "description") = None →
          description t' = description t0) ∧
         userId t' = userId t0) ∧
  (validate t0 = true →
   accepted titleMaxlength (body !! "title") = true →
   accepted descriptionMaxlength (body !! "description") = true →
   ∃ t', r.1 = Updated (oid, t') ∧ r.2 !! oid = Some t' ∧
         title t' = supplied (body !! "title") (title t0) ∧
         description t' = supplied (body !! "description") (description t0)) ∧
  (∀ c b e' db',
     match (createTask c b e' db').1 with
     | Created d => userId d.2 = c
     | _ => True
     end) ∧
  (∀ caller' id' body' e' k t,
     db !! k = Some t →
     ∃ t', (updateTask caller' id' body' e' db).2 !! k = Some t' ∧
           userId t' = userId t).
Proof.
  intros Hc Hl Hu r. subst r.
  destruct (updateTask_stored caller id body e db oid t0 Hc Hl Hu)
    as [(Hr & Hv & Hdb)|(t' & Hr & Hv & Hl' & Ht & Hd & _ & Hu' & _)].
  - split; [|split; [|split]].
    + exists t0. rewrite Hdb. done.
    + intros Hv0 Hat Had.
      rewrite (validate_assign body t0 Hv0 Hat Had) in Hv. done.
    + intros c b e' db'. pose proof (createTask_Created c b e' db') as H.
      destruct (createTask c b e' db').1; try done. tauto.
    + intros. by apply updateTask_userId.
  - rewrite title_assign in Ht. rewrite description_assign in Hd.
    split; [|split; [|split]].
    + exists t'. split; [done|]. unfold supplied in Ht, Hd.
      split; [|split; [|done]]; intros Hp; rewrite Hp in *; done.
    + intros _ _ _. exists t'. done.
    + intros c b e' db'. pose proof (createTask_Created c b e' db') as H.
      destruct (createTask c b e' db').1; try done. tauto.
    + intros. by apply updateTask_userId.
Qed.

(** The amended C4 at the sample collection: a new title, no description. *)
Lemma update_partial_witness :
  ∃ t', (updateTask (D:=mongo) 7%N sample_id {[ "title" := " Buy Bread " ]}
           sample_env sample_db).1 = Updated (1%N, t') ∧
        (updateTask (D:=mongo) 7%N sample_id {[ "title" := " Buy Bread " ]}
           sample_env sample_db).2 !! 1%N = Some t' ∧
        title t' = supplied (Some " Buy Bread ") (title sample_task) ∧
        description t' = supplied None (description sample_task).
Proof.
  exact (proj1 (proj2
    (update_partial (D:=mongo) 7%N sample_id {[ "title" := " Buy Bread " ]}
       sample_env sample_db 1%N sample_task eq_refl eq_refl eq_refl))
    eq_refl eq_refl eq_refl).
Defined.

(** C5 at one request, as stated: with a status other than the two of the
    enum the answer is a 200, the stored status is what it was and the valid
    title and description of the request are stored. *)
Definition invalid_status_still_succeeds `{D : Driver} (caller : ObjectId)
    (id : string) (body : gmap string string) (e : env)
    (db : gmap ObjectId task) : Prop :=
  ∀ oid t0 s,
    castObjectId id = Some oid → db !! oid = Some t0 → userId t0 = caller →
    body !! "status" = Some s → s ≠ "pending" → s ≠ "completed" →
    let r := updateTask caller id body e db in
    http_status r.1 = 200 ∧
    ∃ t', r.2 !! oid = Some t' ∧ status t' = status t0 ∧
          (∀ v, present (body !! "title") = Some v →
                accepted titleMaxlength (Some v) = true →
                title t' = trim v) ∧
          (∀ v, present (body !! "description") = Some v →
                accepted descriptionMaxlength (Some v) = true →
                description t' = trim v).

Definition sample_body : gmap string string :=
  <[ "status" := "done" ]>
  (<[ "title" := "Buy Bread" ]>
  (<[ "description" := copies 501 "a" ]> ∅)).

(** C5, as stated, fails when the same request carries a description that
    the schema rejects: the answer is 500 and the valid title is not
    stored. *)
Lemma update_invalid_status_with_long_description :
  updateTask (D:=mongo) 7%N sample_id sample_body sample_env sample_db
    = (ServerError, sample_db) ∧
  ¬ invalid_status_still_succeeds (D:=mongo) 7%N sample_id sample_body
      sample_env sample_db.
Proof.
  split; [vm_compute; reflexivity|].
  intros H.
  destruct (H 1%N sample_task "done") as [Hs _];
    [reflexivity|reflexivity|reflexivity|reflexivity|
     discriminate|discriminate|].
  vm_compute in Hs. discriminate Hs.
Qed.

(** C5, amended.  For a task of the caller and a request whose status is
    neither "pending" nor "completed": the request is handled as the same
    request without a status, and the stored status is what it was; when the
    stored task and the non-empty title and description of the request pass
    the validators of the schema once trimmed, the answer is a 200 and they
    are stored trimmed. *)
Theorem update_ignores_invalid_status `{D : Driver} (caller : ObjectId)
    (id : string) (body : gmap string string) (e : env)
    (db : gmap ObjectId task) (oid : ObjectId) (t0 : task) (s : string) :
  castObjectId id = Some oid →
  db !! oid = Some t0 →
  userId t0 = caller →
  body !! "status" = Some s →
  s ≠ "pending" →
  s ≠ "completed" →
  let r := updateTask caller id body e db in
  r = updateTask caller id (delete "status" body) e db ∧
  (∃ t', r.2 !! oid = Some t' ∧ status t' = status t0) ∧
  (validate t0 = true →
   accepted titleMaxlength (body !! "title") = true →
   accepted descriptionMaxlength (body !! "description") = true →
   ∃ t', r.1 = Updated (oid, t') ∧ http_status r.1 = 200 ∧
         r.2 !! oid = Some t' ∧ status t' = status t0 ∧
         title t' = supplied (body !! "title") (title t0) ∧
         description t' = supplied (body !! "description") (description t0)).
Proof.
  intros Hc Hl Hu Hs Hp Hcpl r. subst r.
  assert (includes statusEnum s = false) as Hinc.
  { unfold includes, statusEnum. apply bool_decide_eq_false.
    rewrite !elem_of_cons, elem_of_nil. tauto. }
  assert (∀ t, assign body t = assign (delete "status" body) t) as Hassign.
  { intros t. unfold assign.
    rewrite (lookup_delete_ne body "status" "title") by discriminate.
    rewrite (lookup_delete_ne body "status" "description") by discriminate.
    rewrite lookup_delete_eq, Hs. simpl.
    destruct (decide (s = "")); [done|]. by rewrite Hinc. }
  assert (status (assign body t0) = status t0) as Hst.
  { rewrite status_assign, Hs. unfold present.
    destruct (decide (s = "")); [done|]. by rewrite Hinc. }
  split; [|split].
  - rewrite !updateTask_unfold. destruct (castObjectId id); [|done].
    destruct (findOne _ _ _); [|done]. by rewrite Hassign.
  - destruct (updateTask_stored caller id body e db oid t0 Hc Hl Hu)
      as [(_ & _ & ->)|(t' & _ & _ & Hl' & _ & _ & Hs' & _)].
    + eauto.
    + exists t'. split; [done|]. congruence.
  - intros Hv Hat Had.
    destruct (updateTask_stored caller id body e db oid t0 Hc Hl Hu)
      as [(_ & Hv' & _)|(t' & Hr & _ & Hl' & Ht & Hd & Hs' & _)].
    + rewrite (validate_assign body t0 Hv Hat Had) in Hv'. done.
    + exists t'. rewrite Hr. rewrite title_assign in Ht.
      rewrite description_assign in Hd. repeat split; try done. congruence.
Qed.

(** The amended C5 at the sample collection: an unknown status and a new
    title. *)
Lemma update_ignores_invalid_status_witness :
  let body : gmap string string :=
    <[ "status" := "done" ]> {[ "title" := "Buy Bread" ]} in
  let r := updateTask (D:=mongo) 7%N sample_id body sample_env sample_db in
  ∃ t', r.1 = Updated (1%N, t') ∧ http_status r.1 = 200 ∧
        r.2 !! 1%N = Some t' ∧ status t' = status sample_task ∧
        title t' = supplied (body !! "title") (title sample_task) ∧
        description t'
        = supplied (body !! "description") (description sample_task).
Proof.
  intros body.
  refine (proj2 (proj2
    (update_ignores_invalid_status (D:=mongo) 7%N sample_id body sample_env
       sample_db 1%N sample_task "done" eq_refl eq_refl eq_refl eq_refl
       _ _))
    eq_refl eq_refl eq_refl); discriminate.
Defined.

(** ** C10: creation *)

Lemma filter_none {A} (P : A → Prop) `{∀ x, Decision (P x)} (l : list A) :
  (∀ x, x ∈ l → ¬ P x) → filter P l = [].
Proof.
  intros Hl. destruct (filter P l) as [|x l'] eqn:E; [done|].
  assert (x ∈ filter P l) as Hx by (rewrite E; left).
  apply list_elem_of_filter in Hx as [HP Hx]. by destruct (Hl x Hx).
Qed.

Lemma sort_createdAt_desc_singleton d : sort_createdAt_desc [d] = [d].
Proof.
  apply Permutation_singleton_r. unfold sort_createdAt_desc.
  apply merge_sort_Permutation.
Qed.

(** Listing without filters after the first insertion for a caller. *)
Lemma getTasks_after_first_insert `{D : Driver} caller k t db :
  db !! k = None →
  userId t = caller →
  owned caller db = ∅ →
  getTasks caller ∅ (<[k := t]> db) = TasksOk [(k, t)].
Proof.
  intros Hk Hu Hown. rewrite getTasks_unfold. unfold filter_of, find.
  rewrite lookup_empty. simpl. f_equal.
  match goal with
  | |- sort_createdAt_desc ?l = _ => assert (l = [(k, t)]) as ->
  end; [|apply sort_createdAt_desc_singleton].
  apply Permutation_singleton_r.
  rewrite (map_to_list_insert db k t Hk).
  rewrite filter_cons_True
    by (apply Is_true_true, satisfies_spec; simpl; done).
  rewrite filter_none; [done|].
  intros [k' t'] Hin Hsat. apply elem_of_map_to_list in Hin.
  apply Is_true_true, satisfies_spec in Hsat as (Hu' & _). simpl in Hu'.
  assert (owned caller db !! k' = Some t') as Ho.
  { unfold owned. apply map_lookup_filter_Some. done. }
  rewrite Hown, lookup_empty in Ho. done.
Qed.

(** C10. [createTask] reads the title and the description of the body and
    nothing else: two bodies that agree on these two fields are handled
    alike, so a status or a userId in the body changes nothing, and a task
    that is created is pending and belongs to the caller. *)
Theorem create_ignores_other_fields (caller : ObjectId)
    (body body' : gmap string string) (e : env) (db : gmap ObjectId task) :
  body !! "title" = body' !! "title" →
  body !! "description" = body' !! "description" →
  createTask caller body e db = createTask caller body' e db ∧
  (∀ s u,
     createTask caller (<[ "status" := s ]> (<[ "userId" := u ]> body)) e db
     = createTask caller body e db) ∧
  match (createTask caller body e db).1 with
  | Created d => status d.2 = "pending" ∧ userId d.2 = caller
  | _ => True
  end.
Proof.
  intros Ht Hd. split; [|split].
  - unfold createTask. by rewrite Ht, Hd.
  - intros s u. unfold createTask.
    rewrite (lookup_insert_ne _ "status" "title") by discriminate.
    rewrite (lookup_insert_ne _ "userId" "title") by discriminate.
    rewrite (lookup_insert_ne _ "status" "description") by discriminate.
    rewrite (lookup_insert_ne _ "userId" "description") by discriminate.
    done.
  - pose proof (createTask_Created caller body e db) as H.
    destruct (createTask caller body e db).1; try done. tauto.
Qed.

(** C10 at a body that carries a status and a userId of its own. *)
Lemma create_ignores_other_fields_witness :
  let body : gmap string string :=
    <[ "status" := "completed" ]>
    (<[ "userId" := "000000000000000000000008" ]>
    {[ "title" := "T"; "description" := "D" ]}) in
  createTask 7%N body sample_env sample_db
  = createTask 7%N {[ "title" := "T"; "description" := "D" ]}
      sample_env sample_db ∧
  (createTask 7%N body sample_env sample_db).1
  = Created (10%N, Task "T" "D" "pending" 7%N 5000 5000).
Proof.
  intros body. split.
  - refine (proj1 (create_ignores_other_fields 7%N body
              {[ "title" := "T"; "description" := "D" ]}
              sample_env sample_db _ _)); vm_compute; reflexivity.
  - vm_compute. reflexivity.
Defined.

(** ** C7: the listing *)


(** ** C9: the status of a stored task *)

(** The collections that the handlers produce from the empty one. *)
Inductive reachable `{D : Driver} : gmap ObjectId task → Prop :=
| reach_empty : reachable ∅
| reach_create caller body e db :
    reachable db → reachable (createTask caller body e db).2
| reach_update caller id body e db :
    reachable db → reachable (updateTask caller id body e db).2
| reach_delete caller id db :
    reachable db → reachable (deleteTask caller id db).2.

(** Every stored task carries a status of the enum. *)
Definition status_ok (db : gmap ObjectId task) : Prop :=
  ∀ k t, db !! k = Some t → status t = "pending" ∨ status t = "completed".

(** Every stored task passes the validators of the schema. *)
Definition schema_ok (db : gmap ObjectId task) : Prop :=
  ∀ k t, db !! k = Some t → validate t = true.

Lemma validate_status t :
  validate t = true → status t = "pending" ∨ status t = "completed".
Proof.
  intros (_ & _ & _ & _ & H)%validate_true. unfold statusEnum in H.
  rewrite !elem_of_cons, elem_of_nil in H. tauto.
Qed.

Section preservation.
Context `{D : Driver}.
Variable P : task → Prop.
Hypothesis P_validate : ∀ t, validate t = true → P t.

(** A property of tasks that the validators imply, and that holds of every
    stored task, holds of every stored task after each handler. *)
Let inv (db : gmap ObjectId task) : Prop := ∀ k t, db !! k = Some t → P t.

Lemma createTask_preserves caller body e db :
  inv db → inv (createTask caller body e db).2.
Proof using P_validate.
  intros Hinv. rewrite createTask_unfold.
  destruct (present (body !! "title")) as [ttl|]; [|done].
  destruct (present (body !! "description")) as [dsc|]; [|done].
  destruct (validate _) eqn:Hv; [|done].
  destruct (db !! freshId e) eqn:Hf; [done|]. simpl.
  intros k t. rewrite lookup_insert. case_decide.
  - intros [= <-]. by apply P_validate.
  - apply Hinv.
Qed.

Lemma updateTask_preserves caller id body e db :
  inv db → inv (updateTask caller id body e db).2.
Proof using P_validate.
  intros Hinv. rewrite updateTask_unfold.
  destruct (castObjectId id) as [oid|]; [|done].
  destruct (findOne oid caller db) as [t0|]; [|done].
  unfold save_loaded. destruct (validate _) eqn:Hv; [|done].
  destruct (decide _); [done|]. simpl.
  intros k t. rewrite lookup_insert. case_decide.
  - intros [= <-]. by apply P_validate.
  - apply Hinv.
Qed.

Lemma deleteTask_preserves caller id db :
  inv db → inv (deleteTask caller id db).2.
Proof using Type.
  intros Hinv. unfold deleteTask.
  destruct (castObjectId id) as [oid|]; [|done].
  destruct (findOne oid caller db) as [t0|]; [|done]. simpl.
  intros k t. rewrite lookup_delete. case_decide; [done|]. apply Hinv.
Qed.

Lemma reachable_inv db : reachable db → inv db.
Proof using P_validate.
  induction 1 as [|caller body e db _ IH|caller id body e db _ IH
                 |caller id db _ IH].
  - intros k t. by rewrite lookup_empty.
  - by apply createTask_preserves.
  - by apply updateTask_preserves.
  - by apply deleteTask_preserves.
Qed.
End preservation.

Lemma reachable_schema_ok `{D : Driver} db : reachable db → schema_ok db.
Proof.
  intros H k t.
  exact (reachable_inv (λ t, validate t = true) (λ _ Hv, Hv) db H k t).
Qed.

(** C9. In every collection that the handlers produce, each stored task has
    the status "pending" or "completed".  A created task is pending; each of
    [createTask], [updateTask] and [deleteTask] keeps the statuses within
    the two values, and [getTasks] returns stored tasks and stores nothing;
    an update that carries one of the two values as its only field succeeds
    on a task of the caller whatever its status is, and stores that value. *)
Theorem status_two_valued `{D : Driver} (db : gmap ObjectId task) :
  reachable db →
  status_ok db ∧
  (∀ caller body e,
     match (createTask caller body e db).1 with
     | Created d => status d.2 = "pending"
     | _ => True
     end) ∧
  (∀ db0 : gmap ObjectId task,
     status_ok db0 →
     (∀ caller body e, status_ok (createTask caller body e db0).2) ∧
     (∀ caller id body e, status_ok (updateTask caller id body e db0).2) ∧
     (∀ caller id, status_ok (deleteTask caller id db0).2) ∧
     (∀ caller query,
        match getTasks caller query db0 with
        | TasksOk l =>
            Forall (λ d, status d.2 = "pending" ∨ status d.2 = "completed") l
        | _ => True
        end)) ∧
  (∀ caller id oid t0 e s,
     castObjectId id = Some oid → db !! oid = Some t0 → userId t0 = caller →
     s = "pending" ∨ s = "completed" →
     let r := updateTask caller id {[ "status" := s ]} e db in
     ∃ t', r.1 = Updated (oid, t') ∧ r.2 !! oid = Some t' ∧ status t' = s).
Proof.
  intros Hreach. split; [|split; [|split]].
  - intros k t.
    exact (reachable_inv
             (λ t, status t = "pending" ∨ status t = "completed")
             validate_status db Hreach k t).
  - intros caller body e.
    pose proof (createTask_Created caller body e db) as H.
    destruct (createTask caller body e db).1; try done. tauto.
  - intros db0 H0. repeat split.
    + intros caller body e.
      exact (createTask_preserves
               (λ t, status t = "pending" ∨ status t = "completed")
               validate_status caller body e db0 H0).
    + intros caller id body e.
      exact (updateTask_preserves
               (λ t, status t = "pending" ∨ status t = "completed")
               validate_status caller id body e db0 H0).
    + intros caller id.
      exact (deleteTask_preserves
               (λ t, status t = "pending" ∨ status t = "completed")
               caller id db0 H0).
    + intros caller query.
      pose proof (getTasks_stored caller query db0) as Hl.
      destruct (getTasks caller query db0); try done.
      eapply Forall_impl; [exact Hl|]. intros [k t] [Hk _]. simpl in *.
      by apply (H0 k t).
  - intros caller id oid t0 e s Hc Hl Hu Hs r. subst r.
    pose proof (reachable_schema_ok db Hreach oid t0 Hl) as Hv.
    destruct (updateTask_stored caller id {[ "status" := s ]} e db oid t0
                Hc Hl Hu)
      as [(_ & Hv' & _)|(t' & Hr & _ & Hl' & _ & _ & Hs' & _)].
    + rewrite validate_assign in Hv'; done.
    + exists t'. split; [done|]. split; [done|].
      rewrite Hs', status_assign, lookup_singleton_eq.
      destruct Hs as [-> | ->]; reflexivity.
Qed.

(** C9 at a collection made by one creation: the task goes from pending to
    completed and back. *)
Lemma status_two_valued_witness :
  let db1 :=
    (createTask 7%N {[ "title" := "T"; "description" := "D" ]}
       sample_env ∅).2 in
  let id := "00000000000000000000000a" in
  let r1 := updateTask (D:=mongo) 7%N id {[ "status" := "completed" ]}
              sample_env db1 in
  let r2 := updateTask (D:=mongo) 7%N id {[ "status" := "pending" ]}
              sample_env r1.2 in
  status_ok db1 ∧
  (∃ t', r1.1 = Updated (10%N, t') ∧ r1.2 !! 10%N = Some t' ∧
         status t' = "completed") ∧
  (∃ t', r2.1 = Updated (10%N, t') ∧ r2.2 !! 10%N = Some t' ∧
         status t' = "pending").
Proof.
  intros db1 id r1 r2.
  assert (reachable (D:=mongo) db1) as H1
    by exact (reach_create 7%N _ sample_env ∅ reach_empty).
  assert (reachable (D:=mongo) r1.2) as H2
    by exact (reach_update 7%N id _ sample_env db1 H1).
  split; [exact (proj1 (status_two_valued db1 H1))|]. split.
  - refine (proj2 (proj2 (proj2 (status_two_valued db1 H1)))
      7%N id 10%N (Task "T" "D" "pending" 7%N 5000 5000) sample_env
      "completed" _ _ _ _); [reflexivity..|by right].
  - refine (proj2 (proj2 (proj2 (status_two_valued r1.2 H2)))
      7%N id 10%N (Task "T" "D" "completed" 7%N 5000 5000) sample_env
      "pending" _ _ _ _); [reflexivity..|by left].
Defined.


(** * More of the handlers and of the client *)

(** ** [trim], on the list of the characters *)

Fixpoint drop_white (l : list ascii) : list ascii :=
  match l with
  | c :: l' => if is_white c then drop_white l' else l
  | [] => []
  end.

Lemma trimStart_list s :
  list_ascii_of_string (trimStart s) = drop_white (list_ascii_of_string s).
Proof.
  induction s as [|c s IH]; simpl; [done|].
  destruct (is_white c); done.
Qed.

Lemma rev_app_list s1 s2 :
  list_ascii_of_string (String.rev_app s1 s2)
  = (List.rev (list_ascii_of_string s1) ++ list_ascii_of_string s2)%list.
Proof.
  revert s2. induction s1 as [|c s1 IH]; intros s2; simpl; [done|].
  rewrite IH. simpl. by rewrite <- List.app_assoc.
Qed.

Lemma rev_list s :
  list_ascii_of_string (String.rev s) = List.rev (list_ascii_of_string s).
Proof. unfold String.rev. rewrite rev_app_list. simpl. apply List.app_nil_r. Qed.

Lemma trim_list s :
  list_ascii_of_string (trim s)
  = List.rev (drop_white (List.rev (drop_white (list_ascii_of_string s)))).
Proof.
  unfold trim, trimEnd.
  by rewrite rev_list, trimStart_list, rev_list, trimStart_list.
Qed.

Lemma string_eq_list s1 s2 :
  list_ascii_of_string s1 = list_ascii_of_string s2 → s1 = s2.
Proof.
  intros H. rewrite <- (string_of_list_ascii_of_string s1), H.
  apply string_of_list_ascii_of_string.
Qed.

Lemma drop_white_idemp l : drop_white (drop_white l) = drop_white l.
Proof.
  induction l as [|c l IH]; simpl; [done|].
  destruct (is_white c) eqn:E; [done|]. simpl. by rewrite E.
Qed.

Lemma drop_white_head l :
  drop_white l = [] ∨ ∃ c r, drop_white l = c :: r ∧ is_white c = false.
Proof.
  induction l as [|c l IH]; simpl; [by left|].
  destruct (is_white c) eqn:E; [done|]. right. eauto.
Qed.

Lemma drop_white_snoc a c :
  is_white c = false → drop_white (a ++ [c])%list = (drop_white a ++ [c])%list.
Proof.
  intros Hc. induction a as [|d a IH]; simpl; [by rewrite Hc|].
  destruct (is_white d); done.
Qed.

Lemma drop_white_nil l :
  drop_white l = [] ↔ ∀ c, c ∈ l → is_white c = true.
Proof.
  induction l as [|c l IH]; simpl.
  - split; [|done]. intros _ c Hc. by apply elem_of_nil in Hc.
  - destruct (is_white c) eqn:E.
    + rewrite IH. split.
      * intros H d [->|Hd]%elem_of_cons; auto.
      * intros H d Hd. apply H. by right.
    + split; [done|]. intros H. rewrite (H c) in E by left. done.
Qed.

(** What [trim] returns starts and ends with a character that is no white
    space, unless it is empty. *)
Lemma trim_list_shape s :
  list_ascii_of_string (trim s) = [] ∨
  ∃ c m, list_ascii_of_string (trim s) = c :: List.rev m ∧
         is_white c = false ∧ drop_white m = m ∧
         drop_white (List.rev (drop_white (list_ascii_of_string s)))
         = (m ++ [c])%list.
Proof.
  rewrite trim_list.
  destruct (drop_white_head (list_ascii_of_string s))
    as [->|(c & r & -> & Hc)]; [by left|].
  right. exists c, (drop_white (List.rev r)). simpl.
  rewrite (drop_white_snoc _ c Hc), List.rev_app_distr. simpl.
  rewrite drop_white_idemp. done.
Qed.

Lemma trim_idemp s : trim (trim s) = trim s.
Proof.
  apply string_eq_list. rewrite (trim_list (trim s)).
  destruct (trim_list_shape s) as [->|(c & m & -> & Hc & Hm & _)]; [done|].
  simpl. rewrite Hc. simpl. rewrite List.rev_involutive.
  rewrite (drop_white_snoc _ c Hc), Hm, List.rev_app_distr. done.
Qed.

Lemma trim_empty s :
  trim s = "" ↔ ∀ c, c ∈ list_ascii_of_string s → is_white c = true.
Proof.
  rewrite <- drop_white_nil. split.
  - intros H. apply (f_equal list_ascii_of_string) in H.
    rewrite trim_list in H. simpl in H.
    destruct (drop_white_head (list_ascii_of_string s))
      as [E|(c & r & E & Hc)]; [done|].
    rewrite E in H. simpl in H.
    rewrite (drop_white_snoc _ c Hc) in H.
    rewrite List.rev_app_distr in H. done.
  - intros H. apply string_eq_list. rewrite trim_list, H. done.
Qed.

(** ** The listing, exactly *)

(** What [getTasks] returns without filters: the tasks of the caller. *)
Lemma getTasks_no_filter `{D : Driver} caller db :
  ∃ l, getTasks caller ∅ db = TasksOk l ∧
       l ≡ₚ map_to_list (owned caller db).
Proof.
  rewrite getTasks_unfold. unfold filter_of, find.
  rewrite !lookup_empty. simpl. eexists. split; [reflexivity|].
  unfold sort_createdAt_desc. rewrite merge_sort_Permutation.
  apply NoDup_Permutation.
  - apply NoDup_filter, NoDup_map_to_list.
  - apply NoDup_map_to_list.
  - intros [k t]. rewrite list_elem_of_filter.
    rewrite (elem_of_map_to_list db k t).
    rewrite (elem_of_map_to_list (owned caller db) k t).
    unfold owned. rewrite map_lookup_filter_Some, Is_true_true, satisfies_spec.
    simpl. tauto.
Qed.

(** ** One document at a time *)

(** X2. Deleting a task of the caller removes this task and nothing else;
    after it the same route answers NotFound to a second delete and to any
    update, and no listing of the caller holds the task. *)
Theorem delete_removes_one `{D : Driver} (caller : ObjectId) (id : string)
    (db : gmap ObjectId task) (oid : ObjectId) (t : task) :
  castObjectId id = Some oid →
  db !! oid = Some t →
  userId t = caller →
  let r := deleteTask caller id db in
  r = (Deleted, delete oid db) ∧
  S (size r.2) = size db ∧
  (∀ k, k ≠ oid → r.2 !! k = db !! k) ∧
  deleteTask caller id r.2 = (NotFound, r.2) ∧
  (∀ body e, updateTask caller id body e r.2 = (NotFound, r.2)) ∧
  (∀ query,
     match getTasks caller query r.2 with
     | TasksOk l => ∀ t', (oid, t') ∉ l
     | _ => True
     end).
Proof.
  intros Hc Hl Hu r.
  assert (r = (Deleted, delete oid db)) as Hr.
  { subst r. unfold deleteTask. rewrite Hc.
    by rewrite (proj2 (findOne_Some oid caller db t)). }
  assert (findOne oid caller (delete oid db) = None) as Hgone.
  { unfold findOne. by rewrite lookup_delete_eq. }
  rewrite Hr. simpl. repeat split.
  - rewrite map_size_delete, Hl.
    assert (size db ≠ 0%nat); [|lia].
    intros Hz. apply map_size_empty_inv in Hz. rewrite Hz in Hl.
    by rewrite lookup_empty in Hl.
  - intros k Hk. by rewrite lookup_delete_ne.
  - unfold deleteTask. by rewrite Hc, Hgone.
  - intros body e. rewrite updateTask_unfold. by rewrite Hc, Hgone.
  - intros query.
    pose proof (getTasks_stored caller query (delete oid db)) as Hs.
    destruct (getTasks caller query (delete oid db)) as [l| | | | | |];
      try done.
    intros t' Hin. rewrite Forall_forall in Hs.
    destruct (Hs _ Hin) as [Hk _]. simpl in Hk.
    by rewrite lookup_delete_eq in Hk.
Qed.

(** X2 at the sample collection. *)
Lemma delete_removes_one_witness :
  let r := deleteTask (D:=mongo) 7%N sample_id sample_db in
  r = (Deleted, delete 1%N sample_db) ∧
  S (size r.2) = size sample_db ∧
  (∀ k, k ≠ 1%N → r.2 !! k = sample_db !! k) ∧
  deleteTask (D:=mongo) 7%N sample_id r.2 = (NotFound, r.2) ∧
  (∀ body e, updateTask (D:=mongo) 7%N sample_id body e r.2
             = (NotFound, r.2)) ∧
  (∀ query,
     match getTasks (D:=mongo) 7%N query r.2 with
     | TasksOk l => ∀ t', (1%N, t') ∉ l
     | _ => True
     end).
Proof.
  exact (delete_removes_one (D:=mongo) 7%N sample_id sample_db 1%N
           sample_task eq_refl eq_refl eq_refl).
Defined.

(** X3. A creation never alters or removes a stored task.  When it answers
    201 it has added one document, under the generated [_id], which was
    free, with both timestamps at the clock reading; deleting the created
    task through its [_id] gives back the collection as it was. *)
Theorem create_adds_one `{D : Driver} (caller : ObjectId)
    (body : gmap string string) (e : env) (db : gmap ObjectId task) :
  let r := createTask caller body e db in
  db ⊆ r.2 ∧
  match r.1 with
  | Created d =>
      d.1 = freshId e ∧ db !! d.1 = None ∧ r.2 = <[d.1 := d.2]> db ∧
      size r.2 = S (size db) ∧
      createdAt d.2 = now e ∧ updatedAt d.2 = now e ∧
      ∀ id, castObjectId id = Some d.1 →
            deleteTask caller id r.2 = (Deleted, db)
  | _ => True
  end.
Proof.
  simpl. rewrite createTask_unfold.
  destruct (present (body !! "title")) as [ttl|]; [|done].
  destruct (present (body !! "description")) as [dsc|]; [|done].
  destruct (validate _); [|done].
  destruct (db !! freshId e) eqn:Hf; [done|]. simpl.
  split; [by apply insert_subseteq|].
  repeat split; try done.
  - by apply map_size_insert_None.
  - intros id Hc. unfold deleteTask. rewrite Hc.
    rewrite (proj2 (findOne_Some (freshId e) caller _
                      (new_task caller ttl dsc e)))
      by (by rewrite lookup_insert_eq).
    by rewrite delete_insert_id.
Qed.

(** X4. An update changes at most the document that its route names: the
    collection keeps its [_id]s, every other document is what it was, and
    no document changes its [createdAt] or its owner. *)
Theorem update_touches_one `{D : Driver} (caller : ObjectId) (id : string)
    (body : gmap string string) (e : env) (db : gmap ObjectId task) :
  let r := updateTask caller id body e db in
  dom r.2 = dom db ∧
  (∀ k, castObjectId id ≠ Some k → r.2 !! k = db !! k) ∧
  (∀ k t, db !! k = Some t →
          ∃ t', r.2 !! k = Some t' ∧ createdAt t' = createdAt t ∧
                userId t' = userId t).
Proof.
  assert (∀ a : response,
    dom (a, db).2 = dom db ∧
    (∀ k, castObjectId id ≠ Some k → (a, db).2 !! k = db !! k) ∧
    (∀ k t, db !! k = Some t →
            ∃ t', (a, db).2 !! k = Some t' ∧ createdAt t' = createdAt t ∧
                  userId t' = userId t)) as Hsame.
  { intros a. simpl. split; [done|]. split; [done|].
    intros k t Hk. by exists t. }
  simpl. rewrite updateTask_unfold.
  destruct (castObjectId id) as [oid|]; [|apply Hsame].
  destruct (findOne oid caller db) as [t0|] eqn:E; [|apply Hsame].
  apply findOne_Some in E as [Hl Hu].
  unfold save_loaded. destruct (validate _); [|apply Hsame].
  destruct (decide _) as [_|_]; [apply Hsame|]. simpl.
  repeat split.
  - rewrite dom_insert_L.
    apply subseteq_union_1_L, singleton_subseteq_l, elem_of_dom. eauto.
  - intros k Hk. rewrite lookup_insert_ne; [done|]. congruence.
  - intros k t Hk. destruct (decide (oid = k)) as [->|Hne].
    + rewrite lookup_insert_eq. eexists. split; [done|]. simpl.
      rewrite createdAt_assign, userId_assign.
      rewrite Hl in Hk. by injection Hk as <-.
    + rewrite lookup_insert_ne by done. eauto.
Qed.

Lemma task_ext (t1 t2 : task) :
  title t1 = title t2 → description t1 = description t2 →
  status t1 = status t2 → userId t1 = userId t2 →
  createdAt t1 = createdAt t2 → updatedAt t1 = updatedAt t2 →
  t1 = t2.
Proof. destruct t1, t2. simpl. by intros -> -> -> -> -> ->. Qed.

Lemma updatedAt_assign body t0 : updatedAt (assign body t0) = updatedAt t0.
Proof.
  unfold assign.
  repeat (case_match; simpl); reflexivity.
Qed.

(** X5. An update is idempotent: the same request sent again, at any later
    clock reading, gets the same answer and leaves the collection as the
    first one left it. *)
Theorem update_idempotent `{D : Driver} (caller : ObjectId) (id : string)
    (body : gmap string string) (e1 e2 : env) (db : gmap ObjectId task) :
  updateTask caller id body e2 (updateTask caller id body e1 db).2
  = updateTask caller id body e1 db.
Proof.
  rewrite (updateTask_unfold caller id body e1 db).
  destruct (castObjectId id) as [oid|] eqn:Hc.
  2: { simpl. rewrite updateTask_unfold. by rewrite Hc. }
  destruct (findOne oid caller db) as [t0|] eqn:E.
  2: { simpl. rewrite updateTask_unfold. by rewrite Hc, E. }
  pose proof E as E'. apply findOne_Some in E' as [Hl Hu].
  unfold save_loaded. destruct (validate (assign body t0)) eqn:Hv.
  2: { simpl. rewrite updateTask_unfold, Hc, E. unfold save_loaded.
       by rewrite Hv. }
  destruct (decide (assign body t0 = t0)) as [Heq|Hne]; simpl.
  - rewrite updateTask_unfold, Hc, E. unfold save_loaded.
    rewrite Hv. by rewrite decide_True.
  - set (t1 := set_updatedAt (now e1) (assign body t0)).
    assert (assign body t1 = t1) as Hfix.
    { subst t1. apply task_ext.
      - rewrite title_assign. simpl. rewrite title_assign.
        unfold supplied. by destruct (present _).
      - rewrite description_assign. simpl. rewrite description_assign.
        unfold supplied. by destruct (present _).
      - rewrite status_assign. simpl. rewrite status_assign.
        destruct (present _) as [v|]; [|done]. by destruct (includes _ v).
      - by rewrite userId_assign.
      - by rewrite createdAt_assign.
      - by rewrite updatedAt_assign. }
    rewrite updateTask_unfold, Hc.
    rewrite (proj2 (findOne_Some oid caller (<[oid:=t1]> db) t1)).
    2: { rewrite lookup_insert_eq. split; [done|]. subst t1. simpl.
         by rewrite userId_assign. }
    unfold save_loaded. rewrite Hfix.
    assert (validate t1 = true) as -> by exact Hv.
    by rewrite decide_True.
Qed.

(** ** What the collection looks like *)

(** A stored title or description as the schema and its setters leave it:
    not empty, within the length bound, without white space at either
    end. *)
Definition well_formed (t : task) : Prop :=
  title t ≠ "" ∧ (String.length (title t) ≤ titleMaxlength)%nat ∧
  trim (title t) = title t ∧
  description t ≠ "" ∧
  (String.length (description t) ≤ descriptionMaxlength)%nat ∧
  trim (description t) = description t.

Lemma supplied_trimmed v old :
  trim old = old → trim (supplied v old) = supplied v old.
Proof.
  unfold supplied. destruct (present v); [|done]. intros _. apply trim_idemp.
Qed.

Lemma reachable_stored `{D : Driver} (db : gmap ObjectId task) :
  reachable db →
  ∀ k t, db !! k = Some t →
         validate t = true ∧ trim (title t) = title t ∧
         trim (description t) = description t.
Proof.
  intros Hreach.
  induction Hreach as [|caller body e db _ IH|caller id body e db _ IH
                       |caller id db _ IH].
  - intros k t. by rewrite lookup_empty.
  - rewrite createTask_unfold.
    destruct (present (body !! "title")) as [ttl|]; [|done].
    destruct (present (body !! "description")) as [dsc|]; [|done].
    destruct (validate _) eqn:Hv; [|done].
    destruct (db !! freshId e) eqn:Hf; [done|]. simpl.
    intros k t. rewrite lookup_insert. case_decide; [|apply IH].
    intros [= <-]. split; [done|]. simpl. by rewrite !trim_idemp.
  - rewrite updateTask_unfold.
    destruct (castObjectId id) as [oid|]; [|done].
    destruct (findOne oid caller db) as [t0|] eqn:E; [|done].
    apply findOne_Some in E as [Hl _].
    unfold save_loaded. destruct (validate _) eqn:Hv; [|done].
    destruct (decide _); [done|]. simpl.
    intros k t. rewrite lookup_insert. case_decide; [|apply IH].
    intros [= <-]. split; [done|]. simpl.
    destruct (IH oid t0 Hl) as (_ & Ht & Hd).
    rewrite title_assign, description_assign.
    split; by apply supplied_trimmed.
  - unfold deleteTask.
    destruct (castObjectId id) as [oid|]; [|done].
    destruct (findOne oid caller db) as [t0|]; [|done]. simpl.
    intros k t. rewrite lookup_delete. case_decide; [done|]. apply IH.
Qed.

(** X6. In every collection that the handlers produce from the empty one,
    each task has a title of 1 to 100 characters and a description of 1 to
    500 characters, both without white space at either end. *)
Theorem reachable_well_formed `{D : Driver} (db : gmap ObjectId task) :
  reachable db →
  ∀ k t, db !! k = Some t → well_formed t.
Proof.
  intros Hreach k t Hk.
  destruct (reachable_stored db Hreach k t Hk) as (Hv & Ht & Hd).
  apply validate_true in Hv. unfold well_formed. tauto.
Qed.

(** X6 after a creation and an update with white space around the values. *)
Lemma reachable_well_formed_witness :
  let db1 :=
    (createTask 7%N {[ "title" := "  T "; "description" := " D" ]}
       sample_env ∅).2 in
  let db2 :=
    (updateTask (D:=mongo) 7%N "00000000000000000000000a"
       {[ "title" := " Buy Bread  " ]} sample_env db1).2 in
  well_formed (Task "Buy Bread" "D" "pending" 7%N 5000 5000).
Proof.
  intros db1 db2.
  assert (reachable (D:=mongo) db1) as H1
    by exact (reach_create 7%N _ sample_env ∅ reach_empty).
  assert (reachable (D:=mongo) db2) as H2
    by exact (reach_update 7%N _ _ sample_env db1 H1).
  exact (reachable_well_formed db2 H2 10%N
           (Task "Buy Bread" "D" "pending" 7%N 5000 5000) eq_refl).
Defined.

Lemma getTasks_sorted `{D : Driver} caller query db l :
  getTasks caller query db = TasksOk l → StronglySorted newer_first l.
Proof.
  rewrite getTasks_unfold. destruct (find _ _); [|done].
  intros [= <-]. apply (StronglySorted_merge_sort newer_first).
Qed.

Lemma createTask_Created_inv caller body e db d :
  (createTask caller body e db).1 = Created d →
  d.1 = freshId e ∧ db !! d.1 = None ∧
  (createTask caller body e db).2 = <[d.1 := d.2]> db ∧
  userId d.2 = caller ∧ createdAt d.2 = now e.
Proof.
  rewrite createTask_unfold.
  destruct (present (body !! "title")) as [ttl|]; [|done].
  destruct (present (body !! "description")) as [dsc|]; [|done].
  destruct (validate _); [|done].
  destruct (db !! freshId e) eqn:Hf; [done|]. simpl.
  intros [= <-]. done.
Qed.

(** X7. When the clock reading of a creation is later than the [createdAt]
    of every task of the caller, the listing without filters that follows
    starts with the created task, and the rest of it is the tasks that the
    caller had. *)
Theorem created_task_listed_first `{D : Driver} (caller : ObjectId)
    (body : gmap string string) (e : env) (db : gmap ObjectId task)
    (d : document) :
  (createTask caller body e db).1 = Created d →
  (∀ k t, db !! k = Some t → userId t = caller → createdAt t < now e) →
  ∃ l, getTasks caller ∅ (createTask caller body e db).2 = TasksOk (d :: l) ∧
       l ≡ₚ map_to_list (owned caller db).
Proof.
  intros Hcr Hclock.
  destruct (createTask_Created_inv _ _ _ _ _ Hcr)
    as (Hid & Hfree & -> & Hu & Hat).
  destruct d as [k t]. simpl in *.
  destruct (getTasks_no_filter caller (<[k:=t]> db)) as (L & HL & Hperm).
  pose proof (getTasks_sorted _ _ _ _ HL) as Hsorted.
  assert (owned caller db !! k = None) as Hfree'.
  { unfold owned. apply map_lookup_filter_None. by left. }
  assert (L ≡ₚ (k, t) :: map_to_list (owned caller db)) as Hperm'.
  { rewrite Hperm. unfold owned at 1.
    rewrite map_filter_insert_True by done.
    by rewrite map_to_list_insert. }
  rewrite HL. destruct L as [|x L'].
  { by apply Permutation_nil_cons in Hperm'. }
  assert (x = (k, t)) as ->.
  { destruct (decide (x = (k, t))) as [|Hne]; [done|exfalso].
    assert (x ∈ (k, t) :: map_to_list (owned caller db)) as Hx
      by (rewrite <- Hperm'; left).
    apply elem_of_cons in Hx as [|Hx]; [done|].
    destruct x as [k' t']. apply elem_of_map_to_list in Hx.
    unfold owned in Hx. apply map_lookup_filter_Some in Hx as [Hk' Hu'].
    assert ((k, t) ∈ L') as Hin.
    { assert ((k, t) ∈ (k', t') :: L') as Hin
        by (rewrite Hperm'; left).
      apply elem_of_cons in Hin as [|]; [congruence|done]. }
    apply StronglySorted_cons in Hsorted as [Hall _].
    rewrite Forall_forall in Hall. specialize (Hall _ Hin).
    unfold newer_first in Hall. simpl in *.
    specialize (Hclock k' t' Hk' Hu'). lia. }
  exists L'. split; [done|]. by apply Permutation_cons_inv in Hperm'.
Qed.

(** X7 at the sample collection, whose tasks are older than the clock
    reading 5000. *)
Lemma created_task_listed_first_witness :
  let body : gmap string string :=
    {[ "title" := "T"; "description" := "D" ]} in
  let d := (10%N, Task "T" "D" "pending" 7%N 5000 5000) in
  ∃ l, getTasks (D:=mongo) 7%N ∅ (createTask 7%N body sample_env sample_db).2
       = TasksOk (d :: l) ∧
       l ≡ₚ map_to_list (owned 7%N sample_db).
Proof.
  intros body d.
  refine (created_task_listed_first (D:=mongo) 7%N body sample_env sample_db
            d eq_refl _).
  intros k t. unfold sample_db. rewrite !lookup_insert.
  repeat case_decide; try discriminate; intros [= <-] _; simpl; lia.
Defined.

(** ** The client: [utils/validation.js] and [components/TaskForm.js] *)

(** The state of the task form. *)
Module Form.
Record formData := FormData {
  title : string;
  description : string;
  status : string
}.
End Form.

(** [value && value.trim().length > 0], as the condition of an [if]. *)
Definition validateRequired (value : option string) : bool :=
  match present value with
  | Some s => (0 <? String.length (trim s))%nat
  | None => false
  end.

(** The regular expressions that [validateEmail] needs: a sequence of
    single characters and of classes repeated once or more, matched against
    the whole string (the pattern is anchored at both ends). *)
Inductive item :=
| Char (c : ascii)
| Plus (cls : ascii → bool).

Fixpoint matches (r : list item) (s : string) {struct s} : bool :=
  match s, r with
  | EmptyString, [] => true
  | EmptyString, _ :: _ => false
  | String _ _, [] => false
  | String c s', Char d :: r' => bool_decide (c = d) && matches r' s'
  | String c s', Plus cls :: r' => cls c && (matches r s' || matches r' s')
  end.

(** The class [[^\s@]]. *)
Definition not_space_at (c : ascii) : bool :=
  negb (is_white c) && negb (bool_decide (c = "@"%char)).

(** [/^[^\s@]+@[^\s@]+\.[^\s@]+$/] *)
Definition emailRegex : list item :=
  [Plus not_space_at; Char "@"; Plus not_space_at; Char "."; Plus not_space_at].

Definition validateEmail (email : string) : bool := matches emailRegex email.

(** [validateTaskForm]: the validity flag and the [errors] object. *)
Definition validateTaskForm (formData : Form.formData)
    : bool * gmap string string :=
  let errors : gmap string string := ∅ in
  let errors :=
    if negb (validateRequired (Some (Form.title formData)))
    then <[ "title" := "Title is required" ]> errors else errors in
  let errors :=
    if negb (validateRequired (Some (Form.description formData)))
    then <[ "description" := "Description is required" ]> errors
    else errors in
  let errors :=
    if negb (includes ["pending"; "completed"] (Form.status formData))
    then <[ "status" := "Invalid status" ]> errors else errors in
  (bool_decide (size errors = 0%nat), errors).

(** [handleSubmit] of the form: what it hands to [onSubmit], if anything. *)
Definition handleSubmit (formData : Form.formData) : option Form.formData :=
  if (validateTaskForm formData).1 then Some formData else None.

(** The body that [taskService.createTask] and [taskService.updateTask]
    send: [JSON.stringify(taskData)]. *)
Definition body_of (taskData : Form.formData) : gmap string string :=
  <[ "title" := Form.title taskData ]>
  (<[ "description" := Form.description taskData ]>
  (<[ "status" := Form.status taskData ]> ∅)).

(** A string of characters that are neither white space nor [@], at least
    one. *)
Definition clean (s : string) : Prop :=
  s ≠ "" ∧ ∀ c, c ∈ list_ascii_of_string s → not_space_at c = true.

(** A string with a character that is no white space. *)
Definition has_text (s : string) : Prop :=
  ∃ c, c ∈ list_ascii_of_string s ∧ is_white c = false.

Example validateEmail_plain : validateEmail "a@x.com" = true.
Proof. reflexivity. Qed.

Example validateEmail_no_dot : validateEmail "a@localhost" = false.
Proof. reflexivity. Qed.

Example validateEmail_two_at : validateEmail "a@b@x.com" = false.
Proof. reflexivity. Qed.

Example validateEmail_dots : validateEmail "a.b@x.y.com" = true.
Proof. reflexivity. Qed.

Example validateEmail_space : validateEmail "a b@x.com" = false.
Proof. reflexivity. Qed.

Example validateTaskForm_blank :
  validateTaskForm (Form.FormData "  " "D" "done")
  = (false, {[ "title" := "Title is required";
               "status" := "Invalid status" ]}).
Proof. vm_compute. reflexivity. Qed.

Lemma drop_white_elem c l : c ∈ drop_white l → c ∈ l.
Proof.
  induction l as [|d l IH]; simpl; [done|].
  destruct (is_white d); [|done]. intros H. right. auto.
Qed.

Lemma trim_has_text s : trim s ≠ "" ↔ has_text s.
Proof.
  unfold has_text. split.
  - intros Hne.
    destruct (drop_white_head (list_ascii_of_string s))
      as [E|(c & r & E & Hc)].
    + destruct Hne. apply trim_empty. by apply drop_white_nil.
    + exists c. split; [|done]. apply drop_white_elem. rewrite E. left.
  - intros (c & Hin & Hc) He. rewrite trim_empty in He.
    rewrite (He c Hin) in Hc. done.
Qed.

Lemma length_pos_ne s : (0 <? String.length s)%nat = true ↔ s ≠ "".
Proof. destruct s; simpl; split; try done. Qed.

(** X8. [validateRequired] accepts exactly the strings that hold a
    character other than white space; it rejects a missing value, the empty
    string and a string of white space. *)
Theorem validateRequired_has_text (value : option string) :
  validateRequired value = true ↔ ∃ s, value = Some s ∧ has_text s.
Proof.
  unfold validateRequired. destruct (present value) as [s|] eqn:E.
  - apply present_Some in E as [-> Hne].
    rewrite length_pos_ne, trim_has_text. split; [by eauto|].
    by intros (s' & [= <-] & H).
  - split; [done|]. intros (s & -> & (c & Hin & _)).
    apply present_None in E as [|[= ->]]; [done|].
    by apply elem_of_nil in Hin.
Qed.

Lemma matches_nil s : matches [] s = true ↔ s = "".
Proof. destruct s; simpl; split; done. Qed.

Lemma matches_Char d r s :
  matches (Char d :: r) s = true ↔ ∃ b, s = String d b ∧ matches r b = true.
Proof.
  destruct s as [|c s]; simpl.
  - split; [done|]. by intros (b & ? & _).
  - rewrite andb_true_iff, bool_decide_eq_true. split.
    + intros [-> H]. by exists s.
    + intros (b & [= -> ->] & H). done.
Qed.

Lemma matches_Plus cls r s :
  matches (Plus cls :: r) s = true ↔
  ∃ a b, s = a ++ b ∧ a ≠ "" ∧
         (∀ c, c ∈ list_ascii_of_string a → cls c = true) ∧
         matches r b = true.
Proof.
  induction s as [|c s IH].
  - simpl. split; [done|]. intros (a & b & Hs & Ha & _).
    destruct a; [done|discriminate Hs].
  - cbn [matches]. rewrite andb_true_iff, orb_true_iff, IH. split.
    + intros [Hc [(a & b & -> & Ha & Hall & Hb)|Hr]].
      * exists (String c a), b. repeat split; try done.
        intros x [->|Hx]%elem_of_cons; auto.
      * exists (String c ""), s. repeat split; try done.
        intros x [->|Hx]%elem_of_cons; [done|]. by apply elem_of_nil in Hx.
    + intros (a & b & Hs & Ha & Hall & Hb).
      destruct a as [|x a]; [done|]. simpl in Hs. injection Hs as -> ->.
      split; [apply Hall; left|].
      destruct a as [|y a]; [by right|]. left.
      exists (String y a), b. repeat split; try done.
      intros z Hz. apply Hall. by right.
Qed.

Lemma string_app_empty_r (s : string) : s ++ "" = s.
Proof.
  induction s as [|c s IH]; [done|].
  change (String c (s ++ "") = String c s). by rewrite IH.
Qed.

(** X9. [validateEmail] accepts exactly the strings of the form
    local@left.right whose three parts are non-empty and hold neither white
    space nor an at sign (dots are allowed inside the parts). *)
Theorem validateEmail_shape (email : string) :
  validateEmail email = true ↔
  ∃ l d1 d2, email = l ++ "@" ++ d1 ++ "." ++ d2 ∧
             clean l ∧ clean d1 ∧ clean d2.
Proof.
  unfold validateEmail, emailRegex, clean. rewrite matches_Plus. split.
  - intros (l & b & -> & Hl & Hlc & Hb).
    apply matches_Char in Hb as (b' & -> & Hb).
    apply matches_Plus in Hb as (d1 & b & -> & Hd1 & Hd1c & Hb).
    apply matches_Char in Hb as (b' & -> & Hb).
    apply matches_Plus in Hb as (d2 & b & -> & Hd2 & Hd2c & Hb).
    apply matches_nil in Hb as ->.
    exists l, d1, d2. repeat split; try done.
    by rewrite string_app_empty_r.
  - intros (l & d1 & d2 & -> & [Hl Hlc] & [Hd1 Hd1c] & [Hd2 Hd2c]).
    exists l, ("@" ++ d1 ++ "." ++ d2). repeat split; try done.
    apply matches_Char. exists (d1 ++ "." ++ d2). split; [done|].
    apply matches_Plus. exists d1, ("." ++ d2). repeat split; try done.
    apply matches_Char. exists d2. split; [done|].
    apply matches_Plus. exists d2, "". repeat split; try done.
    by rewrite string_app_empty_r.
Qed.

Lemma validateRequired_Some s : validateRequired (Some s) = true ↔ has_text s.
Proof.
  unfold validateRequired, present. destruct (decide (s = "")) as [->|Hne].
  - split; [done|]. intros (c & Hin & _). by apply elem_of_nil in Hin.
  - by rewrite length_pos_ne, trim_has_text.
Qed.

Lemma includes_statusEnum s :
  includes ["pending"; "completed"] s = true ↔
  s = "pending" ∨ s = "completed".
Proof.
  unfold includes. rewrite bool_decide_eq_true, !elem_of_cons, elem_of_nil.
  tauto.
Qed.

(** Lookups in an [errors] object that is built by conditional insertions. *)
Lemma errors_lookup_ne (b : bool) (k k' v : string) (m : gmap string string) :
  k ≠ k' → (if b then <[k:=v]> m else m) !! k' = m !! k'.
Proof. intros Hne. destruct b; [|done]. by rewrite lookup_insert_ne. Qed.

Lemma errors_lookup_eq (b : bool) (k v : string) (m : gmap string string) :
  m !! k = None → (if b then <[k:=v]> m else m) !! k = None ↔ b = false.
Proof.
  intros Hm. destruct b; [|done]. rewrite lookup_insert_eq. done.
Qed.

Lemma errors_is_Some (b : bool) (k k' v : string) (m : gmap string string) :
  is_Some ((if b then <[k:=v]> m else m) !! k') → k' = k ∨ is_Some (m !! k').
Proof.
  destruct b; [|by right]. destruct (decide (k = k')) as [->|Hne]; [by left|].
  rewrite lookup_insert_ne by done. by right.
Qed.

Lemma validateTaskForm_valid (formData : Form.formData) :
  (validateTaskForm formData).1 = true ↔
  has_text (Form.title formData) ∧ has_text (Form.description formData) ∧
  (Form.status formData = "pending" ∨ Form.status formData = "completed").
Proof.
  unfold validateTaskForm. cbn [fst].
  rewrite bool_decide_eq_true, map_size_empty_iff.
  rewrite <- (validateRequired_Some (Form.title formData)).
  rewrite <- (validateRequired_Some (Form.description formData)).
  rewrite <- (includes_statusEnum (Form.status formData)).
  destruct (validateRequired (Some (Form.title formData)));
    destruct (validateRequired (Some (Form.description formData)));
    destruct (includes _ (Form.status formData)); cbn [negb];
    (split;
     [intros H; first [by apply insert_non_empty in H | repeat split]
     |intros (H1 & H2 & H3);
      first [discriminate H1 | discriminate H2 | discriminate H3
            | reflexivity]]).
Qed.

(** X10. [validateTaskForm] reports an error under a key exactly when the
    check of that field fails: the title and the description need a
    character other than white space, the status has to be "pending" or
    "completed".  The form is valid exactly when there is no error, and
    [handleSubmit] hands the form on exactly then. *)
Theorem validateTaskForm_errors (formData : Form.formData) :
  let r := validateTaskForm formData in
  (r.2 !! "title" = None ↔ has_text (Form.title formData)) ∧
  (r.2 !! "description" = None ↔ has_text (Form.description formData)) ∧
  (r.2 !! "status" = None ↔
   Form.status formData = "pending" ∨ Form.status formData = "completed") ∧
  (∀ k, is_Some (r.2 !! k) → k = "title" ∨ k = "description" ∨ k = "status") ∧
  (r.1 = true ↔ r.2 = ∅) ∧
  (r.1 = true ↔
   has_text (Form.title formData) ∧ has_text (Form.description formData) ∧
   (Form.status formData = "pending" ∨ Form.status formData = "completed")) ∧
  handleSubmit formData = (if r.1 then Some formData else None).
Proof.
  intros r.
  split; [|split; [|split; [|split; [|split; [|split]]]]].
  - subst r. unfold validateTaskForm. cbn [snd].
    rewrite errors_lookup_ne by discriminate.
    rewrite errors_lookup_ne by discriminate.
    rewrite errors_lookup_eq by apply lookup_empty.
    rewrite negb_false_iff. apply validateRequired_Some.
  - subst r. unfold validateTaskForm. cbn [snd].
    rewrite errors_lookup_ne by discriminate.
    rewrite errors_lookup_eq
      by (rewrite errors_lookup_ne by discriminate; apply lookup_empty).
    rewrite negb_false_iff. apply validateRequired_Some.
  - subst r. unfold validateTaskForm. cbn [snd].
    rewrite errors_lookup_eq
      by (rewrite !errors_lookup_ne by discriminate; apply lookup_empty).
    rewrite negb_false_iff. apply includes_statusEnum.
  - subst r. unfold validateTaskForm. cbn [snd]. intros k Hk.
    apply errors_is_Some in Hk as [->|Hk]; [auto|].
    apply errors_is_Some in Hk as [->|Hk]; [auto|].
    apply errors_is_Some in Hk as [->|Hk]; [auto|].
    rewrite lookup_empty in Hk. by destruct Hk.
  - subst r. unfold validateTaskForm. cbn [fst snd].
    by rewrite bool_decide_eq_true, map_size_empty_iff.
  - apply validateTaskForm_valid.
  - reflexivity.
Qed.

Lemma handleSubmit_Some formData :
  handleSubmit formData = Some formData →
  has_text (Form.title formData) ∧ has_text (Form.description formData) ∧
  (Form.status formData = "pending" ∨ Form.status formData = "completed").
Proof.
  unfold handleSubmit. intros H. apply validateTaskForm_valid.
  by destruct (validateTaskForm formData).1.
Qed.

Lemma has_text_present s : has_text s → present (Some s) = Some s.
Proof.
  intros (c & Hin & _). apply present_Some. split; [done|].
  intros ->. by apply elem_of_nil in Hin.
Qed.

Lemma body_of_lookup fd :
  body_of fd !! "title" = Some (Form.title fd) ∧
  body_of fd !! "description" = Some (Form.description fd) ∧
  body_of fd !! "status" = Some (Form.status fd).
Proof.
  unfold body_of. rewrite !lookup_insert. repeat case_decide; done.
Qed.

(** X11. A form that [handleSubmit] lets through is never answered with the
    400 of [createTask].  Its task is created with the trimmed title and
    description when these are within 100 and 500 characters (and the
    generated [_id] is new), always as pending, whatever status the form
    holds; when a trimmed field is longer the answer is 500 and nothing is
    stored. *)
Theorem submitted_form_creates (caller : ObjectId) (formData : Form.formData)
    (e : env) (db : gmap ObjectId task) :
  handleSubmit formData = Some formData →
  let r := createTask caller (body_of formData) e db in
  let ttl := trim (Form.title formData) in
  let dsc := trim (Form.description formData) in
  r.1 ≠ BadRequest ∧
  ((String.length ttl ≤ titleMaxlength)%nat →
   (String.length dsc ≤ descriptionMaxlength)%nat →
   db !! freshId e = None →
   let t := Task ttl dsc "pending" caller (now e) (now e) in
   r = (Created (freshId e, t), <[freshId e := t]> db)) ∧
  ((titleMaxlength < String.length ttl)%nat ∨
   (descriptionMaxlength < String.length dsc)%nat →
   r = (ServerError, db)).
Proof.
  intros (Ht & Hd & Hs)%handleSubmit_Some r ttl dsc. subst r ttl dsc.
  destruct (body_of_lookup formData) as (Hbt & Hbd & _).
  rewrite createTask_unfold, Hbt, Hbd.
  rewrite (has_text_present _ Ht), (has_text_present _ Hd).
  apply trim_has_text in Ht, Hd.
  unfold validate, new_task. simpl.
  rewrite !bool_decide_eq_false_2 by done. simpl. rewrite andb_true_r.
  split; [|split].
  - destruct (_ && _); [|done]. destruct (db !! freshId e); done.
  - intros Hlt Hld Hfresh. apply Nat.leb_le in Hlt, Hld.
    by rewrite Hlt, Hld, Hfresh.
  - intros [Hlt|Hld].
    + apply Nat.leb_gt in Hlt. by rewrite Hlt.
    + apply Nat.leb_gt in Hld. rewrite Hld. by rewrite andb_false_r.
Qed.

(** X11 at a form that holds the status "completed". *)
Lemma submitted_form_creates_witness :
  let fd := Form.FormData " T " "D" "completed" in
  let t := Task "T" "D" "pending" 7%N 5000 5000 in
  createTask 7%N (body_of fd) sample_env sample_db
  = (Created (10%N, t), <[10%N := t]> sample_db).
Proof.
  intros fd t.
  refine (proj1 (proj2
    (submitted_form_creates 7%N fd sample_env sample_db _)) _ _ _);
    [vm_compute; reflexivity|vm_compute; lia|vm_compute; lia|reflexivity].
Defined.

(** X12. A form that [handleSubmit] lets through, sent as an update of a
    task of the caller, sets all three fields: the trimmed title, the
    trimmed description and the status of the form, when the trimmed fields
    are within 100 and 500 characters; when one is longer the answer is 500
    and the task is what it was. *)
Theorem submitted_form_updates `{D : Driver} (caller : ObjectId)
    (id : string) (oid : ObjectId) (t0 : task) (formData : Form.formData)
    (e : env) (db : gmap ObjectId task) :
  handleSubmit formData = Some formData →
  castObjectId id = Some oid →
  db !! oid = Some t0 →
  userId t0 = caller →
  let r := updateTask caller id (body_of formData) e db in
  let ttl := trim (Form.title formData) in
  let dsc := trim (Form.description formData) in
  ((String.length ttl ≤ titleMaxlength)%nat →
   (String.length dsc ≤ descriptionMaxlength)%nat →
   ∃ t', r.1 = Updated (oid, t') ∧ r.2 !! oid = Some t' ∧
         title t' = ttl ∧ description t' = dsc ∧
         status t' = Form.status formData ∧
         userId t' = caller ∧ createdAt t' = createdAt t0) ∧
  ((titleMaxlength < String.length ttl)%nat ∨
   (descriptionMaxlength < String.length dsc)%nat →
   r = (ServerError, db)).
Proof.
  intros (Ht & Hd & Hs)%handleSubmit_Some Hc Hl Hu r ttl dsc.
  subst r ttl dsc.
  destruct (body_of_lookup formData) as (Hbt & Hbd & Hbs).
  assert (has_text (Form.status formData)) as Hst.
  { destruct Hs as [-> | ->]; exists "p"%char;
      (split; [|reflexivity]); simpl; rewrite !elem_of_cons; tauto. }
  assert (assign (body_of formData) t0
          = Task (trim (Form.title formData))
              (trim (Form.description formData)) (Form.status formData)
              (userId t0) (createdAt t0) (updatedAt t0)) as Hassign.
  { unfold assign. rewrite Hbt, Hbd, Hbs.
    rewrite (has_text_present _ Ht), (has_text_present _ Hd),
      (has_text_present _ Hst).
    unfold statusEnum.
    rewrite (proj2 (includes_statusEnum _) Hs). reflexivity. }
  assert (validate (assign (body_of formData) t0)
          = (String.length (trim (Form.title formData)) <=? titleMaxlength)%nat
            && (String.length (trim (Form.description formData))
                <=? descriptionMaxlength)%nat) as Hval.
  { rewrite Hassign. apply trim_has_text in Ht, Hd.
    unfold validate. simpl.
    rewrite !bool_decide_eq_false_2 by done. simpl. unfold statusEnum.
    rewrite (proj2 (includes_statusEnum _) Hs). by rewrite !andb_true_r. }
  destruct (updateTask_stored caller id (body_of formData) e db oid t0
              Hc Hl Hu)
    as [(Hr & Hv & Hdb)|(t' & Hr & Hv & Hl' & Ht' & Hd' & Hs' & Hu' & Hc')];
    rewrite Hval in Hv.
  - split.
    + intros Hlt%Nat.leb_le Hld%Nat.leb_le. rewrite Hlt, Hld in Hv. done.
    + intros _. destruct (updateTask _ _ _ _ _) as [a b]. simpl in *.
      by subst.
  - split.
    + intros _ _. exists t'. rewrite Ht', Hd', Hs', Hassign. simpl.
      repeat split; try done. congruence.
    + apply andb_true_iff in Hv as [Hlt%Nat.leb_le Hld%Nat.leb_le]. lia.
Qed.

(** X12 at the sample collection: the form of the first task, edited. *)
Lemma submitted_form_updates_witness :
  let fd := Form.FormData "Buy Bread " " 1 loaf" "completed" in
  let r := updateTask (D:=mongo) 7%N sample_id (body_of fd) sample_env
             sample_db in
  ∃ t', r.1 = Updated (1%N, t') ∧ r.2 !! 1%N = Some t' ∧
        title t' = trim "Buy Bread " ∧ description t' = trim " 1 loaf" ∧
        status t' = "completed" ∧
        userId t' = 7%N ∧ createdAt t' = createdAt sample_task.
Proof.
  intros fd.
  refine (proj1
    (submitted_form_updates (D:=mongo) 7%N sample_id 1%N sample_task fd
       sample_env sample_db _ eq_refl eq_refl eq_refl) _ _);
    [vm_compute; reflexivity|vm_compute; lia|vm_compute; lia].
Defined.

(** * Requests whose fields hold values of any type

    [getTasks] and [createTask] above take a query and a body whose fields
    are strings, as the client of this repository sends them.  The handlers
    themselves put no type on [req.query] and [req.body]: a query field is a
    string, an array (a repeated key) or an object (a bracketed key), a body
    field is any JSON value.  This part gives the two handlers on such
    requests; on string-valued fields they are the handlers above. *)

(** A value of [req.query] or of [req.body].  A number is modelled when it
    is an integer: the handlers test a number for being zero and hand it to
    the cast of the schema, nothing else. *)
#[local] Unset Elimination Schemes.
Inductive jsval :=
| VNull
| VBool (b : bool)
| VNumber (n : Z)
| VString (s : string)
| VArray (l : list jsval)
| VObject (fields : list (string * jsval)).
#[local] Set Elimination Schemes.

(** [if (v)]: [undefined], [null], [false], [0] and [''] are falsy, every
    array and every object is truthy. *)
Definition truthy (v : option jsval) : bool :=
  match v with
  | None => false
  | Some VNull => false
  | Some (VBool b) => b
  | Some (VNumber n) => negb (n =? 0)
  | Some (VString s) => negb (bool_decide (s = ""))
  | Some (VArray _) => true
  | Some (VObject _) => true
  end.

(** What Mongoose does with a value that is no string where the schema has a
    String.  [castString] is the cast to a string ([None]: a CastError).
    [castObject] is the reading of an object as the condition of a filter on
    a String path, such as [{ $ne: 'x' }]: the test that a stored string has
    to pass ([None]: the query is rejected). *)
Class Caster := {
  castString : jsval → option string;
  castObject : list (string * jsval) → option (string → bool)
}.

(** The cast of any value to a String path: a string is itself. *)
Definition toString `{C : Caster} (v : jsval) : option string :=
  match v with
  | VString s => Some s
  | _ => castString v
  end.

(** The words of the specification: a field that is missing or falsy. *)
Definition falsy (v : option jsval) : Prop :=
  v = None ∨ v = Some VNull ∨ v = Some (VBool false) ∨
  v = Some (VNumber 0) ∨ v = Some (VString "").

(** Does a string, once trimmed, pass [required] and [maxlength]? *)
Definition fits (maxlength : nat) (s : string) : bool :=
  negb (bool_decide (trim s = "")) &&
  (String.length (trim s) <=? maxlength)%nat.

Module Request.
Section handlers.
Context `{D : Driver} `{C : Caster}.

(** The test of [filter.status = status] on a stored status: equality with a
    string, [$in] for an array (the cast of a filter turns an array on a
    String path into [$in]), the condition that an object spells. *)
Definition statusTest (v : jsval) : option (string → bool) :=
  match v with
  | VArray l => (λ ss x, bool_decide (x ∈ ss)) <$> mapM toString l
  | VObject o => castObject o
  | _ => (λ s x, bool_decide (x = s)) <$> toString v
  end.

(** The [$or] of the two [$regex] that a truthy [search] adds: [None] when
    the query throws (the value is not cast to a string, or the pattern is
    rejected), [Some None] when there is no [$or]. *)
Definition searchCond (search : option jsval)
    : option (option (string → bool)) :=
  if truthy search then
    match search ≫= toString with
    | Some p =>
        match regexCompile p with
        | Some m => Some (Some m)
        | None => None
        end
    | None => None
    end
  else Some None.

(** The [status] of the filter that a truthy [status] adds. *)
Definition statusCond (status : option jsval)
    : option (option (string → bool)) :=
  if truthy status then
    match status ≫= statusTest with
    | Some test => Some (Some test)
    | None => None
    end
  else Some None.

(** Does a document satisfy the filter? *)
Definition selects (caller : ObjectId) (rx st : option (string → bool))
    (d : document) : bool :=
  bool_decide (userId d.2 = caller) &&
  match rx with
  | Some m => m (title d.2) || m (description d.2)
  | None => true
  end &&
  match st with
  | Some test => test (status d.2)
  | None => true
  end.

(** *** [getTasks] *)
Definition getTasks (caller : ObjectId) (query : gmap string jsval)
    (db : gmap ObjectId task) : response :=
  let search := query !! "search" in
  let status := query !! "status" in
  match searchCond search, statusCond status with
  | Some rx, Some st =>
      TasksOk (sort_createdAt_desc
                 (filter (λ d, selects caller rx st d) (map_to_list db)))
  | _, _ => ServerError
  end.

(** Does the query throw on its search? *)
Definition search_rejected (query : gmap string jsval) : bool :=
  match searchCond (query !! "search") with
  | Some _ => false
  | None => true
  end.

(** *** [createTask] *)
Definition createTask (caller : ObjectId) (body : gmap string jsval)
    (e : env) (db : gmap ObjectId task)
    : response * gmap ObjectId task :=
  let title := body !! "title" in
  let description := body !! "description" in
  if negb (truthy title) || negb (truthy description) then (BadRequest, db)
  else
    match title ≫= toString, description ≫= toString with
    | Some ttl, Some dsc =>
        match save_new e (new_task caller ttl dsc e) db with
        | Some (d, db') => (Created d, db')
        | None => (ServerError, db)
        end
    | _, _ => (ServerError, db)
    end.

End handlers.
End Request.

(** ** On string-valued fields *)

Lemma truthy_VString (v : option string) :
  truthy (VString <$> v) = bool_decide (is_Some (present v)).
Proof.
  destruct v as [s|]; simpl; [|done]. unfold present.
  destruct (decide (s = "")) as [->|Hne].
  - by rewrite bool_decide_eq_true_2 by done.
  - by rewrite bool_decide_eq_false_2 by done.
Qed.

Lemma truthy_present (v : option string) :
  truthy (VString <$> v) = true ↔ ∃ s, present v = Some s.
Proof. rewrite truthy_VString, bool_decide_eq_true. done. Qed.

Lemma searchCond_VString `{D : Driver} `{C : Caster} (v : option string) :
  Request.searchCond (VString <$> v) =
  match present v with
  | Some p =>
      match regexCompile p with
      | Some m => Some (Some m)
      | None => None
      end
  | None => Some None
  end.
Proof.
  unfold Request.searchCond. destruct v as [s|]; simpl; [|done].
  unfold present. destruct (decide (s = "")) as [->|Hne].
  - by rewrite bool_decide_eq_true_2 by done.
  - by rewrite bool_decide_eq_false_2 by done.
Qed.

Lemma statusCond_VString `{C : Caster} (v : option string) :
  Request.statusCond (VString <$> v) =
  Some ((λ s x, bool_decide (x = s)) <$> present v).
Proof.
  unfold Request.statusCond. destruct v as [s|]; simpl; [|done].
  unfold present. destruct (decide (s = "")) as [->|Hne].
  - by rewrite bool_decide_eq_true_2 by done.
  - by rewrite bool_decide_eq_false_2 by done.
Qed.

(** The handlers of this part, on a query and a body whose fields are
    strings, are [getTasks] and [createTask] of the first part. *)
Lemma handlers_on_strings `{D : Driver} `{C : Caster} (caller : ObjectId)
    (fields : gmap string string) (e : env) (db : gmap ObjectId task) :
  Request.getTasks caller (VString <$> fields) db = getTasks caller fields db ∧
  Request.createTask caller (VString <$> fields) e db
  = createTask caller fields e db.
Proof.
  split.
  - rewrite getTasks_unfold. unfold Request.getTasks, find, filter_of.
    rewrite !lookup_fmap, searchCond_VString, statusCond_VString.
    cbn [f_or f_userId f_status].
    destruct (present (fields !! "search")) as [p|]; simpl.
    + destruct (regexCompile p) as [m|]; [|done].
      destruct (present (fields !! "status")); reflexivity.
    + destruct (present (fields !! "status")); reflexivity.
  - rewrite createTask_unfold. unfold Request.createTask.
    rewrite !lookup_fmap, !truthy_VString.
    destruct (fields !! "title") as [ttl|] eqn:Ht; simpl;
      [|done].
    unfold present at 1 3. destruct (decide (ttl = "")) as [->|Hne]; [done|].
    rewrite (bool_decide_eq_true_2 (is_Some (Some ttl))) by eauto. simpl.
    destruct (fields !! "description") as [dsc|] eqn:Hd; simpl; [|done].
    unfold present. destruct (decide (dsc = "")) as [->|Hne']; [done|].
    rewrite bool_decide_eq_true_2 by eauto. simpl.
    unfold save_new. destruct (validate _); [|done].
    destruct (db !! freshId e); done.
Qed.

(** ** What the general [getTasks] returns *)

Lemma selects_spec caller rx st (d : document) :
  Request.selects caller rx st d = true ↔
  userId d.2 = caller ∧
  match rx with
  | Some m => m (title d.2) = true ∨ m (description d.2) = true
  | None => True
  end ∧
  match st with
  | Some test => test (status d.2) = true
  | None => True
  end.
Proof.
  unfold Request.selects. rewrite !andb_true_iff, bool_decide_eq_true.
  destruct rx as [m|], st as [test|]; rewrite ?orb_true_iff; tauto.
Qed.

Lemma request_getTasks_unfold `{D : Driver} `{C : Caster} caller query db :
  Request.getTasks caller query db =
  match Request.searchCond (query !! "search"),
        Request.statusCond (query !! "status") with
  | Some rx, Some st =>
      TasksOk (sort_createdAt_desc
                 (filter (λ d, Request.selects caller rx st d)
                    (map_to_list db)))
  | _, _ => ServerError
  end.
Proof. reflexivity. Qed.

Lemma statusCond_string `{C : Caster} (s : string) :
  s ≠ "" →
  Request.statusCond (Some (VString s))
  = Some (Some (λ x, bool_decide (x = s))).
Proof.
  intros Hs. unfold Request.statusCond. simpl.
  by rewrite bool_decide_eq_false_2 by done.
Qed.

Lemma mapM_toString_strings `{C : Caster} (ss : list string) :
  mapM toString (VString <$> ss) = Some ss.
Proof.
  apply mapM_Some. induction ss as [|s ss IH]; simpl; constructor; done.
Qed.

Lemma statusCond_strings `{C : Caster} (ss : list string) :
  Request.statusCond (Some (VArray (VString <$> ss)))
  = Some (Some (λ x, bool_decide (x ∈ ss))).
Proof.
  unfold Request.statusCond. simpl. by rewrite mapM_toString_strings.
Qed.

Lemma statusCond_falsy `{C : Caster} (v : option jsval) :
  truthy v = false → Request.statusCond v = Some None.
Proof. unfold Request.statusCond. by intros ->. Qed.

Lemma searchCond_falsy `{D : Driver} `{C : Caster} (v : option jsval) :
  truthy v = false → Request.searchCond v = Some None.
Proof. unfold Request.searchCond. by intros ->. Qed.

(** ** C8: a status that the enum does not hold *)

(** C8 at one request, as stated: a status of the query that is truthy and
    neither "pending" nor "completed" gives the empty listing. *)
Definition unknown_status_lists_nothing `{D : Driver} `{C : Caster}
    (caller : ObjectId) (query : gmap string jsval)
    (db : gmap ObjectId task) : Prop :=
  ∀ v, query !! "status" = Some v → truthy (Some v) = true →
       v ≠ VString "pending" → v ≠ VString "completed" →
       Request.getTasks caller query db = TasksOk [].

(** C8, as stated, fails on a status given twice: [?status=done&status=pending]
    reaches the handler as an array, the filter is then the [$in] of
    the two values, and the pending task of the caller is listed.  It also
    fails on the status "done" together with a search pattern that the
    database rejects: the answer is the 500 of the [catch]. *)
Lemma unknown_status_array_lists_tasks :
  (∀ C : Caster,
     Request.getTasks (D:=mongo) 7%N
       {[ "status" := VArray [VString "done"; VString "pending"] ]} sample_db
     = TasksOk [(1%N, sample_task)]) ∧
  (∀ C : Caster,
     ¬ unknown_status_lists_nothing (D:=mongo) 7%N
         {[ "status" := VArray [VString "done"; VString "pending"] ]}
         sample_db) ∧
  (∀ C : Caster,
     Request.getTasks (D:=mongo) 7%N
       (<[ "search" := VString "(" ]> {[ "status" := VString "done" ]})
       sample_db
     = ServerError) ∧
  (∀ C : Caster,
     ¬ unknown_status_lists_nothing (D:=mongo) 7%N
         (<[ "search" := VString "(" ]> {[ "status" := VString "done" ]})
         sample_db).
Proof.
  assert (∀ C : Caster,
     Request.getTasks (D:=mongo) 7%N
       {[ "status" := VArray [VString "done"; VString "pending"] ]} sample_db
     = TasksOk [(1%N, sample_task)]) as H1
    by (intros C; vm_compute; reflexivity).
  assert (∀ C : Caster,
     Request.getTasks (D:=mongo) 7%N
       (<[ "search" := VString "(" ]> {[ "status" := VString "done" ]})
       sample_db
     = ServerError) as H2
    by (intros C; vm_compute; reflexivity).
  split; [exact H1|]. split; [|split; [exact H2|]].
  - intros C H.
    specialize (H (VArray [VString "done"; VString "pending"])).
    rewrite (H1 C) in H. discriminate H; done.
  - intros C H. specialize (H (VString "done")).
    rewrite (H2 C) in H. discriminate H; done.
Qed.

(** C8, amended.  With a status of the query that is a non-empty string and
    neither "pending" nor "completed", in a collection whose tasks carry a
    status of the enum: the tasks that [getTasks] returns carry the status
    of the filter, so there are none; the answer is the 200 with the empty
    list when the query has no search or a search that the database
    accepts, and the 500 when the search of the same query is rejected. *)
Theorem unknown_status_string_lists_nothing `{D : Driver} `{C : Caster}
    (caller : ObjectId) (query : gmap string jsval)
    (db : gmap ObjectId task) (s : string) :
  query !! "status" = Some (VString s) →
  s ≠ "" →
  s ≠ "pending" →
  s ≠ "completed" →
  status_ok db →
  match Request.getTasks caller query db with
  | TasksOk l => Forall (λ d, status d.2 = s) l
  | _ => True
  end ∧
  Request.getTasks caller query db
  = (if Request.search_rejected query then ServerError else TasksOk []) ∧
  (truthy (query !! "search") = false →
   Request.getTasks caller query db = TasksOk [] ∧
   http_status (Request.getTasks caller query db) = 200).
Proof.
  intros Hs Hne Hp Hc Hinv.
  assert (Request.getTasks caller query db
          = (if Request.search_rejected query then ServerError
             else TasksOk [])) as Hempty.
  { rewrite request_getTasks_unfold. unfold Request.search_rejected.
    rewrite Hs, (statusCond_string s Hne).
    destruct (Request.searchCond (query !! "search")) as [rx|]; [|done].
    f_equal. rewrite filter_none.
    { apply Permutation_nil_r. unfold sort_createdAt_desc.
      apply merge_sort_Permutation. }
    intros [k t] Hin Hsel. apply elem_of_map_to_list in Hin.
    apply Is_true_true, selects_spec in Hsel as (_ & _ & Hst).
    simpl in Hst. apply bool_decide_eq_true in Hst.
    destruct (Hinv k t Hin); congruence. }
  split; [|split].
  - rewrite Hempty. by destruct (Request.search_rejected query).
  - exact Hempty.
  - intros Hsearch. rewrite Hempty. unfold Request.search_rejected.
    by rewrite (searchCond_falsy _ Hsearch).
Qed.

(** The amended C8 at the sample collection and the status "done". *)
Lemma unknown_status_string_lists_nothing_witness :
  (∀ C : Caster,
     Request.getTasks (D:=mongo) 7%N {[ "status" := VString "done" ]}
       sample_db = TasksOk []) ∧
  (∀ C : Caster,
     http_status (Request.getTasks (D:=mongo) 7%N
                    {[ "status" := VString "done" ]} sample_db) = 200).
Proof.
  assert (status_ok sample_db) as Hok.
  { intros k t. unfold sample_db. rewrite !lookup_insert.
    repeat case_decide; try discriminate; intros [= <-]; simpl; auto. }
  split; intros C;
    refine ((λ H, _) (proj2 (proj2
      (unknown_status_string_lists_nothing (D:=mongo) 7%N
         {[ "status" := VString "done" ]} sample_db "done"
         eq_refl _ _ _ Hok)) eq_refl));
    try discriminate; tauto.
Defined.

(** ** X1: the listing, exactly *)

(** A stored status passes the status of a query: the query has no truthy
    status, or its status reads as a test that the stored status passes. *)
Definition status_passes `{C : Caster} (v : option jsval) (x : string)
    : Prop :=
  truthy v = false ∨
  ∃ w test, v = Some w ∧ Request.statusTest w = Some test ∧ test x = true.

(** A task passes the search of a query: the query has no truthy search, or
    its search is cast to a pattern that compiles and matches the title or
    the description. *)
Definition search_passes `{D : Driver} `{C : Caster} (v : option jsval)
    (t : task) : Prop :=
  truthy v = false ∨
  ∃ w p m, v = Some w ∧ toString w = Some p ∧ regexCompile p = Some m ∧
           (m (title t) = true ∨ m (description t) = true).

(** X1. A listing holds no task twice, and it holds a task exactly when the
    task is stored, belongs to the caller, passes the status of the query
    and passes its search.  A status that is a non-empty string is passed by
    the tasks with that status, a status given as several strings by the
    tasks with one of them, an empty or missing status by every task.
    Without filters the listing is the tasks of the caller in some order. *)
Theorem list_exactly_matching `{D : Driver} `{C : Caster}
    (caller : ObjectId) (query : gmap string jsval)
    (db : gmap ObjectId task) :
  match Request.getTasks caller query db with
  | TasksOk l =>
      NoDup l ∧
      ∀ k t, (k, t) ∈ l ↔
        db !! k = Some t ∧ userId t = caller ∧
        status_passes (query !! "status") (status t) ∧
        search_passes (query !! "search") t
  | _ => True
  end ∧
  (∀ s x, s ≠ "" → status_passes (Some (VString s)) x ↔ x = s) ∧
  (∀ ss x, status_passes (Some (VArray (VString <$> ss))) x ↔ x ∈ ss) ∧
  (∀ x, status_passes None x ∧ status_passes (Some (VString "")) x) ∧
  ∃ l, Request.getTasks caller ∅ db = TasksOk l ∧
       l ≡ₚ map_to_list (owned caller db) ∧
       length l = size (owned caller db).
Proof.
  split; [|split; [|split; [|split]]].
  - rewrite request_getTasks_unfold.
    unfold Request.searchCond, Request.statusCond, status_passes,
      search_passes.
    destruct (truthy (query !! "search")) eqn:Hts.
    + destruct (query !! "search") as [w|] eqn:Hw; [|done]. simpl.
      destruct (toString w) as [p|] eqn:Hp; [|done].
      destruct (regexCompile p) as [m|] eqn:Hm; [|done].
      destruct (truthy (query !! "status")) eqn:Htt.
      * destruct (query !! "status") as [u|] eqn:Hu; [|done]. simpl.
        destruct (Request.statusTest u) as [test|] eqn:Htest; [|done].
        split.
        { unfold sort_createdAt_desc. rewrite merge_sort_Permutation.
          apply NoDup_filter, NoDup_map_to_list. }
        intros k t.
        rewrite elem_of_sort_createdAt_desc, list_elem_of_filter.
        rewrite (elem_of_map_to_list db k t), Is_true_true, selects_spec.
        simpl. split.
        -- intros ((Hu' & Hrx & Hst) & Hl). repeat split; try done.
           ++ right. by exists u, test.
           ++ right. by exists w, p, m.
        -- intros (Hl & Hu' & [|(u' & test' & [= <-] & Ht' & Hst)]
                   & [|(w' & p' & m' & [= <-] & Hp' & Hm' & Hrx)]);
             try done.
           rewrite Htest in Ht'. injection Ht' as <-.
           rewrite Hp in Hp'. injection Hp' as <-.
           rewrite Hm in Hm'. injection Hm' as <-. done.
      * split.
        { unfold sort_createdAt_desc. rewrite merge_sort_Permutation.
          apply NoDup_filter, NoDup_map_to_list. }
        intros k t.
        rewrite elem_of_sort_createdAt_desc, list_elem_of_filter.
        rewrite (elem_of_map_to_list db k t), Is_true_true, selects_spec.
        simpl. split.
        -- intros ((Hu' & Hrx & _) & Hl). repeat split; try done.
           ++ by left.
           ++ right. by exists w, p, m.
        -- intros (Hl & Hu' & _
                   & [|(w' & p' & m' & [= <-] & Hp' & Hm' & Hrx)]);
             try done.
           rewrite Hp in Hp'. injection Hp' as <-.
           rewrite Hm in Hm'. injection Hm' as <-. done.
    + destruct (truthy (query !! "status")) eqn:Htt.
      * destruct (query !! "status") as [u|] eqn:Hu; [|done]. simpl.
        destruct (Request.statusTest u) as [test|] eqn:Htest; [|done].
        split.
        { unfold sort_createdAt_desc. rewrite merge_sort_Permutation.
          apply NoDup_filter, NoDup_map_to_list. }
        intros k t.
        rewrite elem_of_sort_createdAt_desc, list_elem_of_filter.
        rewrite (elem_of_map_to_list db k t), Is_true_true, selects_spec.
        simpl. split.
        -- intros ((Hu' & _ & Hst) & Hl). repeat split; try done.
           ++ right. by exists u, test.
           ++ by left.
        -- intros (Hl & Hu' & [|(u' & test' & [= <-] & Ht' & Hst)] & _);
             try done.
           rewrite Htest in Ht'. injection Ht' as <-. done.
      * split.
        { unfold sort_createdAt_desc. rewrite merge_sort_Permutation.
          apply NoDup_filter, NoDup_map_to_list. }
        intros k t.
        rewrite elem_of_sort_createdAt_desc, list_elem_of_filter.
        rewrite (elem_of_map_to_list db k t), Is_true_true, selects_spec.
        simpl. split.
        -- intros ((Hu' & _ & _) & Hl). repeat split; try done; by left.
        -- intros (Hl & Hu' & _ & _). done.
  - intros s x Hs. unfold status_passes. simpl.
    rewrite bool_decide_eq_false_2 by done. simpl. split.
    + intros [|(w & test & [= <-] & [= <-] & Hx)]; [done|].
      by apply bool_decide_eq_true in Hx.
    + intros ->. right. eexists _, _. split; [done|]. split; [done|].
      by apply bool_decide_eq_true.
  - intros ss x. unfold status_passes. simpl. split.
    + intros [|(w & test & [= <-] & Htest & Hx)]; [done|].
      simpl in Htest. rewrite mapM_toString_strings in Htest.
      injection Htest as <-. by apply bool_decide_eq_true in Hx.
    + intros Hx. right. eexists _, _. split; [done|]. simpl.
      rewrite mapM_toString_strings. split; [done|].
      by apply bool_decide_eq_true.
  - intros x. split; by left.
  - destruct (getTasks_no_filter caller db) as (l & Hl & Hp).
    exists l. split; [|split; [done|]].
    + rewrite <- Hl.
      pose proof (proj1 (handlers_on_strings caller ∅ (Env 0 0%N) db)) as H.
      by rewrite fmap_empty in H.
    + rewrite Hp. apply length_map_to_list.
Qed.

(** ** C3: search *)

Lemma searchCond_string `{D : Driver} `{C : Caster} (s : string) :
  s ≠ "" →
  Request.searchCond (Some (VString s)) =
  match regexCompile s with
  | Some m => Some (Some m)
  | None => None
  end.
Proof.
  intros Hs. unfold Request.searchCond. simpl.
  by rewrite bool_decide_eq_false_2 by done.
Qed.

(** What the search needs of the regular-expression engine of the database:
    a pattern without metacharacters and without NUL compiles, and matches
    the strings in which it occurs, letter case ignored; the letter case
    that the engine ignores identifies [A]..[Z] with [a]..[z] and no other
    ASCII characters. *)
Definition literal_engine `{D : Driver} (fold : ascii → ascii) : Prop :=
  (∀ p, plain p = true →
     ∃ m, regexCompile p = Some m ∧
          ∀ s, m s = true ↔ occurs_ci fold p s) ∧
  (∀ c, is_ascii c = true → fold c = lower c).

(** The driver [mongo] is such an engine. *)
Lemma mongo_literal_engine : literal_engine (D:=mongo) lower.
Proof.
  split; [|done]. intros p Hp. exists (search_in (literals p)). split.
  - simpl. by rewrite (parse_plain p Hp).
  - intros s. apply search_in_literals.
Qed.

(** C3 at one search string, as stated: a task of the caller is listed
    exactly when the string occurs in its title or in its description,
    letter case ignored. *)
Definition search_is_substring `{D : Driver} `{C : Caster}
    (caller : ObjectId) (s : string) (db : gmap ObjectId task) : Prop :=
  ∀ k t, db !! k = Some t → userId t = caller →
    ∃ l, Request.getTasks caller {[ "search" := VString s ]} db = TasksOk l ∧
         ((k, t) ∈ l ↔
          occurs_ci lower s (title t) ∨ occurs_ci lower s (description t)).

(** A collection whose tasks hold a parenthesis, a NUL character and a
    circumflex. *)
Definition symbols_db : gmap ObjectId task :=
  <[ 2%N := Task "a^b" "n/a" "pending" 7%N 2000 2000 ]>
  {[ 1%N := Task "f(x)" (String "a" (String "000" "b")) "pending" 7%N
              1000 1000 ]}.

(** C3, as stated, fails on a search string that holds a metacharacter of
    regular expressions, because [getTasks] hands the string to [$regex] as
    a pattern: the search "." lists the task "Buy Milk" / "2 litres", in
    which no dot occurs; the search "^b" does not list the task "a^b", in
    which it occurs; the search "(" is answered by the 500 of the [catch]
    though the title "f(x)" holds a parenthesis; and so is a search for the
    NUL character, which no pattern may hold. *)
Lemma search_dot_lists_task_without_dot :
  (∀ C : Caster,
     Request.getTasks (D:=mongo) 7%N {[ "search" := VString "." ]} sample_db
     = TasksOk
         [(2%N, Task "Call Bob" "about the invoice" "completed" 7%N 3000 3500);
          (1%N, sample_task)]) ∧
  ¬ (occurs_ci lower "." (title sample_task) ∨
     occurs_ci lower "." (description sample_task)) ∧
  (∀ C : Caster, ¬ search_is_substring (D:=mongo) 7%N "." sample_db) ∧
  (∀ C : Caster,
     Request.getTasks (D:=mongo) 7%N {[ "search" := VString "^b" ]} symbols_db
     = TasksOk []) ∧
  occurs_ci lower "^b" "a^b" ∧
  (∀ C : Caster, ¬ search_is_substring (D:=mongo) 7%N "^b" symbols_db) ∧
  (∀ C : Caster,
     Request.getTasks (D:=mongo) 7%N {[ "search" := VString "(" ]} symbols_db
     = ServerError) ∧
  occurs_ci lower "(" "f(x)" ∧
  (∀ C : Caster, ¬ search_is_substring (D:=mongo) 7%N "(" symbols_db) ∧
  (∀ C : Caster,
     Request.getTasks (D:=mongo) 7%N
       {[ "search" := VString (String "000" "") ]} symbols_db
     = ServerError) ∧
  occurs_ci lower (String "000" "") (String "a" (String "000" "b")) ∧
  (∀ C : Caster,
     ¬ search_is_substring (D:=mongo) 7%N (String "000" "") symbols_db).
Proof.
  assert (∀ C : Caster,
     Request.getTasks (D:=mongo) 7%N {[ "search" := VString "." ]} sample_db
     = TasksOk
         [(2%N, Task "Call Bob" "about the invoice" "completed" 7%N 3000 3500);
          (1%N, sample_task)]) as Hdot
    by (intros C; vm_compute; reflexivity).
  assert (¬ (occurs_ci lower "." (title sample_task) ∨
             occurs_ci lower "." (description sample_task))) as Hno.
  { rewrite <- !search_in_literals. vm_compute. intros [|]; discriminate. }
  assert (∀ C : Caster,
     Request.getTasks (D:=mongo) 7%N {[ "search" := VString "^b" ]} symbols_db
     = TasksOk []) as Hcaret
    by (intros C; vm_compute; reflexivity).
  assert (∀ C : Caster,
     Request.getTasks (D:=mongo) 7%N {[ "search" := VString "(" ]} symbols_db
     = ServerError) as Hparen
    by (intros C; vm_compute; reflexivity).
  assert (∀ C : Caster,
     Request.getTasks (D:=mongo) 7%N
       {[ "search" := VString (String "000" "") ]} symbols_db
     = ServerError) as Hnul
    by (intros C; vm_compute; reflexivity).
  assert (occurs_ci lower "^b" "a^b") as Hocc by (by exists "a", "").
  repeat split; try done.
  - intros C H.
    destruct (H 1%N sample_task eq_refl eq_refl) as (l & Hl & Hiff).
    rewrite (Hdot C) in Hl. injection Hl as <-.
    apply Hno, Hiff. apply list_elem_of_In. simpl. auto.
  - intros C H.
    destruct (H 2%N _ eq_refl eq_refl) as (l & Hl & Hiff).
    rewrite (Hcaret C) in Hl. injection Hl as <-.
    apply (elem_of_nil (2%N, Task "a^b" "n/a" "pending" 7%N 2000 2000)).
    apply Hiff. by left.
  - by exists "f", "x)".
  - intros C H.
    destruct (H 1%N _ eq_refl eq_refl) as (l & Hl & _).
    rewrite (Hparen C) in Hl. discriminate.
  - by exists "a", "b".
  - intros C H.
    destruct (H 1%N _ eq_refl eq_refl) as (l & Hl & _).
    rewrite (Hnul C) in Hl. discriminate.
Qed.

(** C3, amended.  With a database whose regular-expression engine is a
    [literal_engine], for a task of the caller: when the search of the query
    is a non-empty string without metacharacters and without NUL and the
    query has no status, [getTasks] lists the task exactly when the string
    occurs in its title or in its description, letter case ignored; a task
    titled "Buy Milk" is listed for the search "milk".  A non-empty search
    string that the engine rejects as a pattern is answered by a 500. *)
Theorem search_plain_is_substring `{D : Driver} `{C : Caster}
    (fold : ascii → ascii) (caller : ObjectId) (db : gmap ObjectId task)
    (k : ObjectId) (t : task) :
  literal_engine fold →
  db !! k = Some t →
  userId t = caller →
  (∀ query s,
     query !! "search" = Some (VString s) → s ≠ "" → plain s = true →
     truthy (query !! "status") = false →
     ∃ l, Request.getTasks caller query db = TasksOk l ∧
          ((k, t) ∈ l ↔
           occurs_ci fold s (title t) ∨ occurs_ci fold s (description t))) ∧
  (title t = "Buy Milk" →
   ∃ l, Request.getTasks caller {[ "search" := VString "milk" ]} db
        = TasksOk l ∧ (k, t) ∈ l) ∧
  (∀ query s,
     query !! "search" = Some (VString s) → s ≠ "" →
     regexCompile s = None →
     Request.getTasks caller query db = ServerError ∧
     http_status (Request.getTasks caller query db) = 500).
Proof.
  intros [Hlaw Hfold] Hk Hu.
  assert (∀ query s,
     query !! "search" = Some (VString s) → s ≠ "" → plain s = true →
     truthy (query !! "status") = false →
     ∃ l, Request.getTasks caller query db = TasksOk l ∧
          ((k, t) ∈ l ↔
           occurs_ci fold s (title t) ∨ occurs_ci fold s (description t)))
    as Hmain.
  { intros query s Hq Hne Hplain Hst.
    destruct (Hlaw s Hplain) as (m & Hm & Hspec).
    rewrite request_getTasks_unfold, Hq, (searchCond_string s Hne), Hm.
    rewrite (statusCond_falsy _ Hst). eexists. split; [done|].
    rewrite elem_of_sort_createdAt_desc, list_elem_of_filter.
    rewrite (elem_of_map_to_list db k t), Is_true_true, selects_spec.
    simpl. rewrite !Hspec. tauto. }
  split; [exact Hmain|]. split.
  - intros Ht.
    destruct (Hmain {[ "search" := VString "milk" ]} "milk")
      as (l & Hl & Hiff); try done.
    exists l. split; [done|]. apply Hiff. left. rewrite Ht.
    exists (fold_string fold "Buy "), "". simpl.
    rewrite !Hfold by done. reflexivity.
  - intros query s Hq Hne Hrej.
    rewrite request_getTasks_unfold, Hq, (searchCond_string s Hne), Hrej.
    done.
Qed.

(** The amended C3 at the driver [mongo] and the sample collection. *)
Lemma search_plain_is_substring_witness :
  (∀ C : Caster,
     ∃ l, Request.getTasks (D:=mongo) 7%N {[ "search" := VString "milk" ]}
            sample_db = TasksOk l ∧ (1%N, sample_task) ∈ l) ∧
  (∀ C : Caster,
     Request.getTasks (D:=mongo) 7%N {[ "search" := VString "(" ]}
       sample_db = ServerError).
Proof.
  split; intros C.
  - exact (proj1 (proj2
      (search_plain_is_substring (D:=mongo) lower 7%N sample_db 1%N
         sample_task mongo_literal_engine eq_refl eq_refl)) eq_refl).
  - refine (proj1 (proj2 (proj2
      (search_plain_is_substring (D:=mongo) lower 7%N sample_db 1%N
         sample_task mongo_literal_engine eq_refl eq_refl))
      {[ "search" := VString "(" ]} "(" eq_refl _ eq_refl)).
    discriminate.
Defined.

(** ** C6: what a creation validates *)

Lemma truthy_falsy (v : option jsval) : truthy v = false ↔ falsy v.
Proof.
  unfold falsy. destruct v as [[|b|n|s|l|o]|]; simpl.
  - naive_solver.
  - split; [intros ->; auto|]. intros [|[|[[= ->]|[|]]]]; done.
  - rewrite negb_false_iff, Z.eqb_eq. split; [intros ->; auto 6|].
    intros [|[|[|[[= ->]|]]]]; done.
  - rewrite negb_false_iff, bool_decide_eq_true. split; [intros ->; auto 6|].
    intros [|[|[|[|[= ->]]]]]; done.
  - split; [done|]. intros [|[|[|[|]]]]; done.
  - split; [done|]. intros [|[|[|[|]]]]; done.
  - split; auto.
Qed.

Lemma validate_new_task caller ttl dsc e :
  validate (new_task caller ttl dsc e)
  = fits titleMaxlength ttl && fits descriptionMaxlength dsc.
Proof.
  unfold validate, fits, new_task. simpl.
  by rewrite andb_true_r, !andb_assoc.
Qed.

Lemma request_createTask_unfold `{C : Caster} caller body e db :
  Request.createTask caller body e db =
  if negb (truthy (body !! "title")) || negb (truthy (body !! "description"))
  then (BadRequest, db)
  else
    match body !! "title" ≫= toString, body !! "description" ≫= toString with
    | Some ttl, Some dsc =>
        if fits titleMaxlength ttl && fits descriptionMaxlength dsc then
          match db !! freshId e with
          | Some _ => (ServerError, db)
          | None => (Created (freshId e, new_task caller ttl dsc e),
                     <[freshId e := new_task caller ttl dsc e]> db)
          end
        else (ServerError, db)
    | _, _ => (ServerError, db)
    end.
Proof.
  unfold Request.createTask, save_new.
  destruct (negb _ || negb _); [done|].
  destruct (body !! "title" ≫= toString) as [ttl|]; [|done].
  destruct (body !! "description" ≫= toString) as [dsc|]; [|done].
  rewrite validate_new_task.
  destruct (fits _ ttl && fits _ dsc); [|done].
  destruct (db !! freshId e); done.
Qed.

Lemma request_getTasks_after_first_insert `{D : Driver} `{C : Caster}
    caller k t db :
  db !! k = None →
  userId t = caller →
  owned caller db = ∅ →
  Request.getTasks caller ∅ (<[k := t]> db) = TasksOk [(k, t)].
Proof.
  intros Hk Hu Hown.
  rewrite <- (getTasks_after_first_insert caller k t db Hk Hu Hown).
  pose proof (proj1 (handlers_on_strings caller ∅ (Env 0 0%N)
                       (<[k := t]> db))) as H.
  by rewrite fmap_empty in H.
Qed.

(** The words of the specification: a field that is missing or empty. *)
Definition missing_or_empty (v : option jsval) : Prop :=
  v = None ∨ v = Some VNull ∨ v = Some (VString "").

(** C6 at one request, as stated: a 400 exactly when the title or the
    description is missing or empty; otherwise a stored task with the
    title and the description of the request, pending, of the caller. *)
Definition create_as_stated `{C : Caster} (caller : ObjectId)
    (body : gmap string jsval) (e : env) (db : gmap ObjectId task) : Prop :=
  let r := Request.createTask caller body e db in
  (r.1 = BadRequest ↔
   missing_or_empty (body !! "title") ∨
   missing_or_empty (body !! "description")) ∧
  (∀ ttl dsc,
     body !! "title" = Some (VString ttl) → ttl ≠ "" →
     body !! "description" = Some (VString dsc) → dsc ≠ "" →
     ∃ k t, r.1 = Created (k, t) ∧ r.2 !! k = Some t ∧
            title t = ttl ∧ description t = dsc ∧
            status t = "pending" ∧ userId t = caller).

(** C6, as stated, fails three times.  A title of 101 characters is neither
    a 400 nor a stored task but the 500 of the [catch].  A title with white
    space around it is stored trimmed, so not equal to the input.  And the
    title [0] or [false], which is neither missing nor empty, is answered
    by the 400, because the handler tests the truth of the field. *)
Lemma create_long_title_is_server_error :
  (∀ C : Caster,
     Request.createTask 7%N
       {[ "title" := VString (copies 101 "a");
          "description" := VString "D" ]}
       sample_env sample_db = (ServerError, sample_db)) ∧
  (∀ C : Caster,
     ¬ create_as_stated 7%N
         {[ "title" := VString (copies 101 "a");
            "description" := VString "D" ]}
         sample_env sample_db) ∧
  (∀ C : Caster,
     (Request.createTask 7%N
        {[ "title" := VString " T "; "description" := VString "D" ]}
        sample_env sample_db).1
     = Created (10%N, Task "T" "D" "pending" 7%N 5000 5000)) ∧
  (∀ C : Caster,
     ¬ create_as_stated 7%N
         {[ "title" := VString " T "; "description" := VString "D" ]}
         sample_env sample_db) ∧
  (∀ C : Caster,
     Request.createTask 7%N
       {[ "title" := VNumber 0; "description" := VString "D" ]}
       sample_env sample_db = (BadRequest, sample_db)) ∧
  (∀ C : Caster,
     ¬ create_as_stated 7%N
         {[ "title" := VNumber 0; "description" := VString "D" ]}
         sample_env sample_db) ∧
  (∀ C : Caster,
     Request.createTask 7%N
       {[ "title" := VBool false; "description" := VString "D" ]}
       sample_env sample_db = (BadRequest, sample_db)) ∧
  (∀ C : Caster,
     ¬ create_as_stated 7%N
         {[ "title" := VBool false; "description" := VString "D" ]}
         sample_env sample_db).
Proof.
  assert (∀ C : Caster,
     Request.createTask 7%N
       {[ "title" := VString (copies 101 "a");
          "description" := VString "D" ]}
       sample_env sample_db = (ServerError, sample_db)) as Hlong
    by (intros C; vm_compute; reflexivity).
  assert (∀ C : Caster,
     (Request.createTask 7%N
        {[ "title" := VString " T "; "description" := VString "D" ]}
        sample_env sample_db).1
     = Created (10%N, Task "T" "D" "pending" 7%N 5000 5000)) as Htrim
    by (intros C; vm_compute; reflexivity).
  assert (∀ C : Caster,
     Request.createTask 7%N
       {[ "title" := VNumber 0; "description" := VString "D" ]}
       sample_env sample_db = (BadRequest, sample_db)) as Hzero
    by (intros C; vm_compute; reflexivity).
  assert (∀ C : Caster,
     Request.createTask 7%N
       {[ "title" := VBool false; "description" := VString "D" ]}
       sample_env sample_db = (BadRequest, sample_db)) as Hfalse
    by (intros C; vm_compute; reflexivity).
  repeat split; try done.
  - intros C [_ H].
    destruct (H (copies 101 "a") "D") as (k & t & Hr & _); [done..|].
    rewrite (Hlong C) in Hr. discriminate Hr.
  - intros C [_ H].
    destruct (H " T " "D") as (k & t & Hr & _ & Ht & _); [done..|].
    rewrite (Htrim C) in Hr. injection Hr as <- <-. discriminate Ht.
  - intros C [H _]. rewrite (Hzero C) in H.
    destruct (proj1 H eq_refl) as [[|[|]]|[|[|]]]; discriminate.
  - intros C [H _]. rewrite (Hfalse C) in H.
    destruct (proj1 H eq_refl) as [[|[|]]|[|[|]]]; discriminate.
Qed.

(** C6, amended.  [createTask] answers 400 exactly when the title or the
    description is missing or falsy ([null], [false], [0] or the empty
    string), and whenever it does not answer 201 the collection is what it
    was.  Otherwise, when the title and the description are strings (or are
    cast to strings) that, once trimmed, pass the validators of the schema,
    and the generated [_id] is new, it stores and returns the task with the
    trimmed title and description, pending, of the caller, and for a caller
    without tasks [getTasks] then returns this task alone; so does
    Create("T", "D").  When a field is not cast to a string or, trimmed,
    does not pass the validators, the answer is 500. *)
Theorem create_validates `{C : Caster} (caller : ObjectId)
    (body : gmap string jsval) (e : env) (db : gmap ObjectId task) :
  let r := Request.createTask caller body e db in
  (r.1 = BadRequest ↔
   falsy (body !! "title") ∨ falsy (body !! "description")) ∧
  (http_status r.1 = 400 ↔ r.1 = BadRequest) ∧
  match r.1 with Created _ => True | _ => r.2 = db end ∧
  (∀ vt vd ttl dsc,
     body !! "title" = Some vt → body !! "description" = Some vd →
     truthy (Some vt) = true → truthy (Some vd) = true →
     toString vt = Some ttl → toString vd = Some dsc →
     fits titleMaxlength ttl = true →
     fits descriptionMaxlength dsc = true →
     db !! freshId e = None →
     let t := Task (trim ttl) (trim dsc) "pending" caller (now e) (now e) in
     r = (Created (freshId e, t), <[freshId e := t]> db) ∧
     http_status r.1 = 201 ∧
     (owned caller db = ∅ →
      ∀ D : Driver,
        Request.getTasks caller ∅ r.2 = TasksOk [(freshId e, t)])) ∧
  (body !! "title" = Some (VString "T") →
   body !! "description" = Some (VString "D") →
   db !! freshId e = None → owned caller db = ∅ →
   ∃ d, r.1 = Created d ∧
        (∀ D : Driver, Request.getTasks caller ∅ r.2 = TasksOk [d]) ∧
        title d.2 = "T" ∧ description d.2 = "D" ∧ status d.2 = "pending") ∧
  (∀ vt vd,
     body !! "title" = Some vt → body !! "description" = Some vd →
     truthy (Some vt) = true → truthy (Some vd) = true →
     match toString vt, toString vd with
     | Some ttl, Some dsc =>
         fits titleMaxlength ttl = false ∨
         fits descriptionMaxlength dsc = false
     | _, _ => True
     end →
     r = (ServerError, db) ∧ http_status r.1 = 500).
Proof.
  intros r. subst r.
  assert (∀ vt vd ttl dsc,
     body !! "title" = Some vt → body !! "description" = Some vd →
     truthy (Some vt) = true → truthy (Some vd) = true →
     toString vt = Some ttl → toString vd = Some dsc →
     fits titleMaxlength ttl = true →
     fits descriptionMaxlength dsc = true →
     db !! freshId e = None →
     let t := Task (trim ttl) (trim dsc) "pending" caller (now e) (now e) in
     Request.createTask caller body e db
       = (Created (freshId e, t), <[freshId e := t]> db) ∧
     (owned caller db = ∅ →
      ∀ D : Driver,
        Request.getTasks caller ∅ (Request.createTask caller body e db).2
        = TasksOk [(freshId e, t)])) as Hok.
  { intros vt vd ttl dsc Ht Hd Htt Htd Hst Hsd Hft Hfd Hfresh t.
    rewrite request_createTask_unfold, Ht, Hd, Htt, Htd. simpl.
    rewrite Hst, Hsd, Hft, Hfd, Hfresh. simpl.
    split; [done|]. intros Hown D.
    by apply request_getTasks_after_first_insert. }
  split; [|split; [|split; [|split; [|split]]]].
  - rewrite <- !truthy_falsy, request_createTask_unfold.
    destruct (truthy (body !! "title")) eqn:Ht,
      (truthy (body !! "description")) eqn:Hd; simpl;
      try (split; [auto|done]).
    split; [|intros [|]; done].
    destruct (body !! "title" ≫= toString) as [ttl|]; [|done].
    destruct (body !! "description" ≫= toString) as [dsc|]; [|done].
    destruct (fits _ ttl && fits _ dsc); [|done].
    destruct (db !! freshId e); done.
  - destruct (Request.createTask caller body e db).1; simpl; split; done.
  - rewrite request_createTask_unfold.
    destruct (negb _ || negb _); [done|].
    destruct (body !! "title" ≫= toString) as [ttl|]; [|done].
    destruct (body !! "description" ≫= toString) as [dsc|]; [|done].
    destruct (fits _ ttl && fits _ dsc); [|done].
    destruct (db !! freshId e); done.
  - intros vt vd ttl dsc Ht Hd Htt Htd Hst Hsd Hft Hfd Hfresh t.
    destruct (Hok vt vd ttl dsc Ht Hd Htt Htd Hst Hsd Hft Hfd Hfresh)
      as [Hr Hlist].
    split; [exact Hr|]. split; [by rewrite Hr|]. exact Hlist.
  - intros Ht Hd Hfresh Hown.
    destruct (Hok (VString "T") (VString "D") "T" "D") as [Hr Hlist];
      try done.
    eexists. split; [by rewrite Hr|]. split; [by apply Hlist|done].
  - intros vt vd Ht Hd Htt Htd Hbad.
    rewrite request_createTask_unfold, Ht, Hd, Htt, Htd. simpl.
    destruct (toString vt) as [ttl|]; [|done].
    destruct (toString vd) as [dsc|]; [|done].
    destruct Hbad as [-> | ->]; [done|]. by rewrite andb_false_r.
Qed.

(** The amended C6 at a caller without tasks: Create("T", "D") and a title
    with white space around it. *)
Lemma create_validates_witness :
  (∀ C : Caster,
     let body : gmap string jsval :=
       {[ "title" := VString "T"; "description" := VString "D" ]} in
     let r := Request.createTask 9%N body sample_env sample_db in
     ∃ d, r.1 = Created d ∧
          (∀ D : Driver, Request.getTasks 9%N ∅ r.2 = TasksOk [d]) ∧
          title d.2 = "T" ∧ description d.2 = "D" ∧ status d.2 = "pending") ∧
  (∀ C : Caster,
     let body : gmap string jsval :=
       {[ "title" := VString " T "; "description" := VString "D" ]} in
     let r := Request.createTask 9%N body sample_env sample_db in
     let t := Task (trim " T ") (trim "D") "pending" 9%N 5000 5000 in
     r = (Created (10%N, t), <[10%N := t]> sample_db) ∧
     http_status r.1 = 201).
Proof.
  split.
  - intros C body.
    exact (proj1 (proj2 (proj2 (proj2 (proj2
      (create_validates 9%N body sample_env sample_db)))))
      eq_refl eq_refl eq_refl
      ltac:(vm_compute; reflexivity)).
  - intros C body.
    destruct (proj1 (proj2 (proj2 (proj2
      (create_validates 9%N body sample_env sample_db))))
      (VString " T ") (VString "D") " T " "D"
      eq_refl eq_refl eq_refl eq_refl eq_refl eq_refl eq_refl eq_refl
      eq_refl) as (Hr & Hs & _).
    split; [exact Hr|exact Hs].
Defined.

(** ** X13: an update that repeats the stored task *)

(** A field of a request repeats a stored value: it is omitted or empty, or
    it holds the stored value with white space around it. *)
Definition repeats (v : option string) (old : string) : Prop :=
  present v = None ∨ ∃ s, v = Some s ∧ trim s = old.

Lemma supplied_repeats v old : repeats v old → supplied v old = old.
Proof.
  unfold supplied. intros [-> | (s & -> & Hs)]; [done|].
  by destruct (present (Some s)) eqn:E; [apply present_Some in E as [[= <-] _]|].
Qed.

(** X13. In a collection that the handlers produced, an update of a task of
    the caller that repeats the stored task (the title and the description
    each omitted, empty, or the stored one with white space around it; the
    status omitted, empty, outside the enum, or the stored one) answers with
    the task as it is stored and writes nothing: the collection, and with it
    [updatedAt], is what it was, at any clock reading. *)
Theorem update_without_changes `{D : Driver} (caller : ObjectId)
    (id : string) (oid : ObjectId) (t0 : task) (body : gmap string string)
    (e : env) (db : gmap ObjectId task) :
  reachable db →
  castObjectId id = Some oid →
  db !! oid = Some t0 →
  userId t0 = caller →
  repeats (body !! "title") (title t0) →
  repeats (body !! "description") (description t0) →
  (∀ s, present (body !! "status") = Some s →
        includes statusEnum s = false ∨ s = status t0) →
  updateTask caller id body e db = (Updated (oid, t0), db) ∧
  http_status (updateTask caller id body e db).1 = 200 ∧
  (updateTask caller id body e db).2 !! oid = Some t0.
Proof.
  intros Hreach Hc Hl Hu Ht Hd Hs.
  destruct (reachable_stored db Hreach oid t0 Hl) as (Hv & _ & _).
  assert (assign body t0 = t0) as Hsame.
  { apply task_ext.
    - rewrite title_assign. by apply supplied_repeats.
    - rewrite description_assign. by apply supplied_repeats.
    - rewrite status_assign.
      destruct (present (body !! "status")) as [s|]; [|done].
      destruct (Hs s eq_refl) as [-> | ->]; [done|].
      by destruct (includes statusEnum (status t0)).
    - apply userId_assign.
    - apply createdAt_assign.
    - apply updatedAt_assign. }
  assert (updateTask caller id body e db = (Updated (oid, t0), db)) as Hr.
  { rewrite (updateTask_owned _ _ _ _ _ _ _ Hc Hl Hu), Hsame, Hv.
    by rewrite decide_True. }
  rewrite Hr. done.
Qed.

(** X13 at a collection made by one creation: the stored task sent back
    with white space around its title, at a later clock reading. *)
Lemma update_without_changes_witness :
  let t := Task "T" "D" "pending" 7%N 5000 5000 in
  let db1 :=
    (createTask 7%N {[ "title" := "T"; "description" := "D" ]}
       sample_env ∅).2 in
  updateTask (D:=mongo) 7%N "00000000000000000000000a"
    {[ "title" := " T "; "description" := "D"; "status" := "done" ]}
    (Env 6000 11%N) db1
  = (Updated (10%N, t), db1).
Proof.
  intros t db1.
  refine (proj1
    (update_without_changes (D:=mongo) 7%N "00000000000000000000000a" 10%N t
       {[ "title" := " T "; "description" := "D"; "status" := "done" ]}
       (Env 6000 11%N) db1
       (reach_create 7%N _ sample_env ∅ reach_empty)
       eq_refl eq_refl eq_refl _ _ _)).
  - right. by exists " T ".
  - right. by exists "D".
  - intros s [= <-]. by left.
Defined.
